(** * create-atomik: the project generator and its package-manager resolver

    A shallow embedding of [src/utils/package-manager.ts] and
    [src/commands/create.ts].

    - Paths are lists of components; [path.resolve] and [path.join] are
      written out (POSIX flavour).
    - The file system is a tree of directories and files; every [fs.*Sync]
      call of the source is a function on that tree.
    - [process.cwd()], [process.env] and the file system form the state that
      the generator threads through its calls; exceptions and
      [process.exit] are the two abnormal completions.
    - What Node.js and the operating system decide (whether a system call is
      refused, what a child process does, [JSON.parse] and
      [JSON.stringify]) is gathered in the record [Platform].
    - The informational [console.log] lines are left out; [console.error]
      and every call with an effect leave an event in the trace. *)

From Stdlib Require Import ZArith Ascii.
From stdpp Require Import gmap strings list fin_maps.

#[local] Set Warnings "-register-all".

(** ** Strings as JavaScript uses them *)

Module Js.

(** [s.includes(sub)] *)
Fixpoint includes (sub s : string) : bool :=
  String.prefix sub s ||
  match s with
  | EmptyString => false
  | String _ s' => includes sub s'
  end.

(** The pieces of [s.split(sep)] for a one-character separator, with the
    piece being read kept in [cur]. *)
Fixpoint split_acc (sep : ascii) (cur s : string) : list string :=
  match s with
  | EmptyString => [cur]
  | String c s' =>
      if Ascii.eqb c sep then cur :: split_acc sep "" s'
      else split_acc sep (cur +:+ String c "") s'
  end.

Definition split (sep : ascii) (s : string) : list string :=
  split_acc sep "" s.

(** Truthiness of an optional boolean ([undefined] is falsy). *)
Definition truthy_bool (b : option bool) : bool := default false b.

(** Truthiness of an optional string ([undefined] and [''] are falsy). *)
Definition truthy_string (s : option string) : bool :=
  match s with
  | Some s => negb (String.eqb s "")
  | None => false
  end.

(** A value interpolated in a template literal. *)
Definition interpolate (s : option string) : string :=
  default "undefined" s.

End Js.

(** ** Association lists keyed by strings

    Used wherever the source has an object whose keys are walked in
    insertion order, and for the listing of a directory. *)

Module Assoc.

Section Ops.
Context {V : Type}.

Fixpoint get (l : list (string * V)) (k : string) : option V :=
  match l with
  | [] => None
  | (k', v) :: rest => if String.eqb k' k then Some v else get rest k
  end.

(** An existing key keeps its place, a new one goes last. *)
Fixpoint set (l : list (string * V)) (k : string) (v : V)
  : list (string * V) :=
  match l with
  | [] => [(k, v)]
  | (k', v') :: rest =>
      if String.eqb k' k then (k', v) :: rest else (k', v') :: set rest k v
  end.

Fixpoint remove (l : list (string * V)) (k : string)
  : list (string * V) :=
  match l with
  | [] => []
  | (k', v') :: rest =>
      if String.eqb k' k then remove rest k else (k', v') :: remove rest k
  end.
End Ops.

End Assoc.

(** ** Paths *)

Abbreviation path := (list string).

Module Path.

Definition segments (s : string) : list string := Js.split "/"%char s.

(** One step of normalisation: [.] and empty segments vanish, [..]
    climbs. *)
Definition push (acc : path) (seg : string) : path :=
  if String.eqb seg "" then acc
  else if String.eqb seg "." then acc
  else if String.eqb seg ".." then removelast acc
  else acc ++ [seg].

Definition normalize_onto (base : path) (segs : list string) : path :=
  fold_left push segs base.

(** [path.join(base, rel)] for a resolved [base]. *)
Definition join (base : path) (rel : string) : path :=
  normalize_onto base (segments rel).

Definition is_absolute (s : string) : bool := String.prefix "/" s.

(** [path.resolve(cwd, name)] *)
Definition resolve (cwd : path) (name : string) : path :=
  if is_absolute name then normalize_onto [] (segments name)
  else normalize_onto cwd (segments name).

(** [path.dirname(p)] *)
Definition dirname (p : path) : path := removelast p.

(** A segment that normalisation keeps as it is. *)
Definition plain (seg : string) : bool :=
  negb (String.eqb seg "" || String.eqb seg "." || String.eqb seg "..").

End Path.

(** ** The file system *)

Inductive node :=
  | File (content : string)
  | Dir (entries : list (string * node)).

Module Fs.

Definition empty_dir : node := Dir [].

(** Walk from [t] along [p]. *)
Fixpoint stat (t : node) (p : path) : option node :=
  match p with
  | [] => Some t
  | c :: p' =>
      match t with
      | Dir ch =>
          match Assoc.get ch c with
          | Some t' => stat t' p'
          | None => None
          end
      | File _ => None
      end
  end.

Definition exists_at (t : node) (p : path) : bool :=
  match stat t p with Some _ => true | None => false end.

Definition is_dir (t : node) (p : path) : bool :=
  match stat t p with Some (Dir _) => true | _ => false end.

Definition is_file (t : node) (p : path) : bool :=
  match stat t p with Some (File _) => true | _ => false end.

Definition read_file (t : node) (p : path) : option string :=
  match stat t p with Some (File c) => Some c | _ => None end.

(** Rewrite the subtree found at [p] with [f]; [None] when [p] is not
    there or [f] refuses. *)
Fixpoint update_at (t : node) (p : path) (f : node → option node)
  : option node :=
  match p with
  | [] => f t
  | c :: p' =>
      match t with
      | Dir ch =>
          match Assoc.get ch c with
          | Some sub =>
              match update_at sub p' f with
              | Some sub' => Some (Dir (Assoc.set ch c sub'))
              | None => None
              end
          | None => None
          end
      | File _ => None
      end
  end.

(** Put [sub] in the place of what is found at [p]. *)
Definition plug (t : node) (p : path) (sub : node) : option node :=
  update_at t p (λ _, Some sub).

(** [mkdir -p]: missing directories along [p] are created; a file met on
    the way (or at [p] itself) is an error. *)
Fixpoint mkdir_p (t : node) (p : path) : option node :=
  match p with
  | [] => match t with Dir _ => Some t | File _ => None end
  | c :: p' =>
      match t with
      | Dir ch =>
          match mkdir_p (default empty_dir (Assoc.get ch c)) p' with
          | Some sub' => Some (Dir (Assoc.set ch c sub'))
          | None => None
          end
      | File _ => None
      end
  end.

(** Create or overwrite the file at [p]: the parent must be a directory
    and [p] itself must not be one. *)
Fixpoint write_file (t : node) (p : path) (content : string)
  : option node :=
  match p with
  | [] => None
  | c :: p' =>
      match t with
      | Dir ch =>
          match p' with
          | [] =>
              match Assoc.get ch c with
              | Some (Dir _) => None
              | _ => Some (Dir (Assoc.set ch c (File content)))
              end
          | _ :: _ =>
              match Assoc.get ch c with
              | Some sub =>
                  match write_file sub p' content with
                  | Some sub' => Some (Dir (Assoc.set ch c sub'))
                  | None => None
                  end
              | None => None
              end
          end
      | File _ => None
      end
  end.

(** [rm -rf p]: the entry at [p] and all below it go; a missing [p] is not
    an error. The root itself is never removed. *)
Fixpoint remove (t : node) (p : path) : node :=
  match p with
  | [] => t
  | c :: p' =>
      match t with
      | Dir ch =>
          match p' with
          | [] => Dir (Assoc.remove ch c)
          | _ :: _ =>
              match Assoc.get ch c with
              | Some sub => Dir (Assoc.set ch c (remove sub p'))
              | None => t
              end
          end
      | File _ => t
      end
  end.

End Fs.

(** ** JSON values and the objects the generator builds *)

Inductive json :=
  | JNull
  | JBool (b : bool)
  | JNum (n : Z)
  | JStr (s : string)
  | JArr (items : list json)
  | JObj (fields : list (string * json)).

(** [v[k]] for a JSON value: only objects have fields. *)
Definition json_field (v : json) (k : string) : option json :=
  match v with
  | JObj fields => Assoc.get fields k
  | _ => None
  end.

(** ** package-manager.ts: the descriptors *)

Record PackageManager := {
  name : string;
  installCommand : string;
  runCommand : string;
  lockFile : string;
  configFile : option string;
}.

Definition npm : PackageManager := {|
  name := "npm";
  installCommand := "npm install";
  runCommand := "npm run";
  lockFile := "package-lock.json";
  configFile := None;
|}.

Definition pnpm : PackageManager := {|
  name := "pnpm";
  installCommand := "pnpm install";
  runCommand := "pnpm";
  lockFile := "pnpm-lock.yaml";
  configFile := Some ".pnpmrc";
|}.

Definition yarn : PackageManager := {|
  name := "yarn";
  installCommand := "yarn install";
  runCommand := "yarn";
  lockFile := "yarn.lock";
  configFile := Some ".yarnrc.yml";
|}.

Definition bun : PackageManager := {|
  name := "bun";
  installCommand := "bun install";
  runCommand := "bun run";
  lockFile := "bun.lockb";
  configFile := None;
|}.

(** [Object.entries(PACKAGE_MANAGERS)], in the order the literal lists its
    keys. *)
Definition PACKAGE_MANAGERS : list (string * PackageManager) :=
  [("npm", npm); ("pnpm", pnpm); ("yarn", yarn); ("bun", bun)].

(** [PACKAGE_MANAGERS] is an object literal, so reading a property by a
    computed key also finds what every object inherits from
    [Object.prototype]. *)
Definition Object_prototype_members : list string :=
  ["constructor"; "__defineGetter__"; "__defineSetter__"; "hasOwnProperty";
   "__lookupGetter__"; "__lookupSetter__"; "isPrototypeOf";
   "propertyIsEnumerable"; "toString"; "valueOf"; "__proto__";
   "toLocaleString"].

(** What a read of [PACKAGE_MANAGERS[key]] can yield when it is truthy:
    one of the four descriptors, or an inherited member. *)
Inductive PmRef :=
  | Known (pm : PackageManager)
  | Inherited (member : string).

(** [PACKAGE_MANAGERS[key]]; [None] stands for [undefined]. *)
Definition PACKAGE_MANAGERS_at (key : string) : option PmRef :=
  match Assoc.get PACKAGE_MANAGERS key with
  | Some pm => Some (Known pm)
  | None =>
      if existsb (String.eqb key) Object_prototype_members
      then Some (Inherited key)
      else None
  end.

(** The properties the generator reads from a resolved manager. The
    inherited members are functions (whose [name] is their own) except
    [__proto__], which is [Object.prototype] itself; none of them has the
    command fields. *)
Definition ref_name (r : PmRef) : option string :=
  match r with
  | Known pm => Some (name pm)
  | Inherited m =>
      if String.eqb m "__proto__" then None
      else if String.eqb m "constructor" then Some "Object"
      else Some m
  end.

Definition ref_installCommand (r : PmRef) : option string :=
  match r with
  | Known pm => Some (installCommand pm)
  | Inherited _ => None
  end.

(** [x === 'literal'] for a possibly undefined string [x]. *)
Definition is_string (x : option string) (literal : string) : bool :=
  match x with
  | Some s => String.eqb s literal
  | None => false
  end.

(** ** The platform *)

Inductive FsCall :=
  | CallMkdir (p : path)
  | CallWriteFile (p : path)
  | CallReadFile (p : path)
  | CallRm (p : path).

Record Platform := {
  (** the operating system refuses the call (permissions, full disk, ...) *)
  os_refuses : FsCall → node → bool;
  (** [execSync(cmd, {stdio: 'ignore'})] returns normally; used for the
      [--version] probes, which are taken to leave the file system alone
      and to answer the same within one run *)
  version_probe : string → bool;
  (** [execSync(cmd, {stdio: 'inherit', env})] run in a working directory:
      whether the child exits with status zero, and the file system it
      leaves behind *)
  execSync : string → path → gmap string string → node → bool * node;
  JSON_parse : string → option json;
  (** [JSON.stringify(value, null, indent)] *)
  JSON_stringify : json → nat → string;
}.

(** The bodies of the template files; their text plays no part below. *)
Record Templates := {
  getMainTemplate : string → bool → string;
  getReadmeTemplate : string;
  getGitignoreTemplate : string;
  getTsConfigTemplate : string;
}.

(** ** State, completions and the monad of the generator *)

Inductive JsError :=
  | SystemError (code : string)
  | ChildProcessError (cmd : string)
  | TypeError.

Inductive Event :=
  | EvMkdir (p : path)
  | EvWriteFile (p : path) (content : string)
  | EvRm (p : path)
  | EvChdir (p : path)
  | EvExec (cmd : string) (dir : path)
  | EvResolve (dir : path) (seen : node) (result : PmRef)
  | EvConsoleError (msg : string) (detail : option JsError).

Record State := {
  fs : node;
  cwd : path;
  env : gmap string string;
  trace : list Event;
}.

Definition set_fs (t : node) (st : State) : State :=
  {| fs := t; cwd := cwd st; env := env st; trace := trace st |}.

Definition set_cwd (p : path) (st : State) : State :=
  {| fs := fs st; cwd := p; env := env st; trace := trace st |}.

Definition log (ev : Event) (st : State) : State :=
  {| fs := fs st; cwd := cwd st; env := env st; trace := trace st ++ [ev] |}.

Inductive Completion (A : Type) :=
  | Normal (a : A)
  | Throw (e : JsError)
  | Exit (code : Z).

Arguments Normal {A} a.
Arguments Throw {A} e.
Arguments Exit {A} code.

Definition M (A : Type) : Type := State → Completion A * State.

#[global] Instance M_ret : MRet M := λ A a st, (Normal a, st).

#[global] Instance M_bind : MBind M := λ A B f m st,
  match m st with
  | (Normal a, st') => f a st'
  | (Throw e, st') => (Throw e, st')
  | (Exit code, st') => (Exit code, st')
  end.

Definition throw {A} (e : JsError) : M A := λ st, (Throw e, st).

(** [process.exit(code)]: nothing after it runs, no handler sees it. *)
Definition process_exit {A} (code : Z) : M A := λ st, (Exit code, st).

(** [try { body } catch (error) { handler }] *)
Definition try_catch {A} (body : M A) (handler : JsError → M A) : M A :=
  λ st,
    match body st with
    | (Throw e, st') => handler e st'
    | other => other
    end.

(** [try { body } finally { cleanup }] *)
Definition try_finally {A} (body : M A) (cleanup : M unit) : M A :=
  λ st,
    match body st with
    | (Normal a, st') =>
        match cleanup st' with
        | (Normal _, st'') => (Normal a, st'')
        | (Throw e, st'') => (Throw e, st'')
        | (Exit code, st'') => (Exit code, st'')
        end
    | (Throw e, st') =>
        match cleanup st' with
        | (Normal _, st'') => (Throw e, st'')
        | (Throw e', st'') => (Throw e', st'')
        | (Exit code, st'') => (Exit code, st'')
        end
    | (Exit code, st') => (Exit code, st')
    end.

(** [for (const x of l) { f(x) }] *)
Fixpoint for_each {A} (l : list A) (f : A → M unit) : M unit :=
  match l with
  | [] => mret tt
  | x :: rest => f x ;; for_each rest f
  end.

Section Program.

Context (P : Platform) (T : Templates).

(** *** The Node.js calls the generator makes *)

Definition process_cwd : M path := λ st, (Normal (cwd st), st).

(** [process.chdir(p)] needs [p] to be a directory. *)
Definition process_chdir (p : path) : M unit := λ st,
  let st1 := log (EvChdir p) st in
  if Fs.is_dir (fs st) p then (Normal tt, set_cwd p st1)
  else (Throw (SystemError "ENOENT"), st1).

Definition existsSync (p : path) : M bool := λ st,
  (Normal (Fs.exists_at (fs st) p), st).

(** [fs.mkdirSync(p, { recursive: true })] *)
Definition mkdirSync (p : path) : M unit := λ st,
  let st1 := log (EvMkdir p) st in
  if os_refuses P (CallMkdir p) (fs st) then
    (Throw (SystemError "EACCES"), st1)
  else
    match Fs.mkdir_p (fs st) p with
    | Some t' => (Normal tt, set_fs t' st1)
    | None => (Throw (SystemError "EEXIST"), st1)
    end.

(** [fs.writeFileSync(p, content)] *)
Definition writeFileSync (p : path) (content : string) : M unit := λ st,
  let st1 := log (EvWriteFile p content) st in
  if os_refuses P (CallWriteFile p) (fs st) then
    (Throw (SystemError "EACCES"), st1)
  else
    match Fs.write_file (fs st) p content with
    | Some t' => (Normal tt, set_fs t' st1)
    | None => (Throw (SystemError "ENOENT"), st1)
    end.

(** [fs.rmSync(p, { recursive: true, force: true })] *)
Definition rmSync (p : path) : M unit := λ st,
  let st1 := log (EvRm p) st in
  if os_refuses P (CallRm p) (fs st) then
    (Throw (SystemError "EACCES"), st1)
  else (Normal tt, set_fs (Fs.remove (fs st) p) st1).

Definition console_error (msg : string) (detail : option JsError)
  : M unit := λ st,
  (Normal tt, log (EvConsoleError msg detail) st).

(** [execSync(cmd, { stdio: 'inherit', env: { ...process.env } })]; a
    command that is [undefined] is a [TypeError], a child that fails is
    an exception. *)
Definition execSync_inherit (cmd : option string) : M unit := λ st,
  match cmd with
  | None => (Throw TypeError, st)
  | Some c =>
      let st1 := log (EvExec c (cwd st)) st in
      let '(ok, t') := execSync P c (cwd st) (env st) (fs st) in
      if ok then (Normal tt, set_fs t' st1)
      else (Throw (ChildProcessError c), set_fs t' st1)
  end.

(** *** package-manager.ts *)

(** Probe 1: the first manager, in the order of [Object.entries], whose
    lock file exists in [workingDir]. *)
Definition lock_file_probe (t : node) (workingDir : path)
  : option PackageManager :=
  snd <$> find
    (λ e : string * PackageManager,
       Fs.exists_at t (Path.join workingDir (lockFile (snd e))))
    PACKAGE_MANAGERS.

(** Probe 2: the same walk over the optional config files. *)
Definition config_file_probe (t : node) (workingDir : path)
  : option PackageManager :=
  snd <$> find
    (λ e : string * PackageManager,
       match configFile (snd e) with
       | Some cf => Fs.exists_at t (Path.join workingDir cf)
       | None => false
       end)
    PACKAGE_MANAGERS.

(** Probe 3: the [packageManager] field of [package.json]. Everything
    inside the source's [try] that throws (an unreadable file, text that
    does not parse, [null], a field without [split]) ends in the empty
    [catch] and counts as no match. [packageManager_field] is what the
    [try] does with the parsed manifest. *)
Definition packageManager_field (packageJson : json) : option PmRef :=
  match packageJson with
  | JObj fields =>
      match Assoc.get fields "packageManager" with
      | Some (JStr s) =>
          if Js.truthy_string (Some s) then
            let pmName := hd "" (Js.split "@"%char s) in
            PACKAGE_MANAGERS_at pmName
          else None
      | _ => None
      end
  | _ => None
  end.

Definition manifest_field_probe (t : node) (workingDir : path)
  : option PmRef :=
  let packageJsonPath := Path.join workingDir "package.json" in
  if Fs.exists_at t packageJsonPath then
    if os_refuses P (CallReadFile packageJsonPath) t then None
    else
      match Fs.read_file t packageJsonPath with
      | None => None
      | Some text =>
          match JSON_parse P text with
          | Some packageJson => packageManager_field packageJson
          | None => None
          end
      end
  else None.

(** Probe 4: [process.env.npm_config_user_agent]. *)
Definition user_agent_probe (e : gmap string string)
  : option PackageManager :=
  let userAgent := e !! "npm_config_user_agent" in
  if Js.truthy_string userAgent then
    let ua := default "" userAgent in
    if Js.includes "pnpm" ua then Some pnpm
    else if Js.includes "yarn" ua then Some yarn
    else if Js.includes "bun" ua then Some bun
    else None
  else None.

(** Probe 5: the managers whose [--version] command runs ... *)
Definition availableManagers : list (string * PackageManager) :=
  List.filter
    (λ e : string * PackageManager,
       version_probe P (name (snd e) +:+ " --version"))
    PACKAGE_MANAGERS.

Definition preferenceOrder : list string := ["pnpm"; "yarn"; "bun"; "npm"].

(** ... and the first of them in the order of preference. *)
Fixpoint first_preferred (order : list string)
  (available : list (string * PackageManager)) : option PackageManager :=
  match order with
  | [] => None
  | preferred :: rest =>
      match find (λ am : string * PackageManager,
                    String.eqb (fst am) preferred) available with
      | Some found => Some (snd found)
      | None => first_preferred rest available
      end
  end.

Definition availability_probe : option PackageManager :=
  first_preferred preferenceOrder availableManagers.

(** Probes 4 to 6, which do not look at the directory. *)
Definition resolve_without_directory (e : gmap string string)
  : PackageManager :=
  match user_agent_probe e with
  | Some pm => pm
  | None =>
      match availability_probe with
      | Some pm => pm
      | None => npm
      end
  end.

Definition detectPackageManager (t : node) (currentDir : path)
  (e : gmap string string) (projectPath : option path) : PmRef :=
  let workingDir := default currentDir projectPath in
  match lock_file_probe t workingDir with
  | Some pm => Known pm
  | None =>
      match config_file_probe t workingDir with
      | Some pm => Known pm
      | None =>
          match manifest_field_probe t workingDir with
          | Some r => r
          | None => Known (resolve_without_directory e)
          end
      end
  end.

(** The call as the generator makes it: it reads the state and leaves a
    mark in the trace, with the file system it saw. *)
Definition call_detectPackageManager (projectPath : option path)
  : M PmRef := λ st,
  let r := detectPackageManager (fs st) (cwd st) (env st) projectPath in
  (Normal r, log (EvResolve (default (cwd st) projectPath) (fs st) r) st).

Definition installDependencies (packageManager : PmRef)
  (projectPath : path) : M unit :=
  originalCwd ← process_cwd;
  process_chdir projectPath;;
  try_finally
    (execSync_inherit (ref_installCommand packageManager))
    (process_chdir originalCwd).

Definition generateScripts (packageManager : PmRef) (isTypeScript : bool)
  : json :=
  let baseScripts :=
    if isTypeScript then
      JObj [("dev", JStr "ts-node-dev --respawn --transpile-only src/index.ts");
            ("build", JStr "tsc");
            ("start", JStr "node dist/index.js")]
    else
      JObj [("dev", JStr "node --watch src/index.js");
            ("start", JStr "node src/index.js")] in
  if is_string (ref_name packageManager) "bun" then
    if isTypeScript then
      JObj [("dev", JStr "bun run --watch src/index.ts");
            ("build", JStr "bun build src/index.ts --outdir dist --target node");
            ("start", JStr "bun run dist/index.js")]
    else
      JObj [("dev", JStr "bun run --watch src/index.js");
            ("start", JStr "bun run src/index.js")]
  else baseScripts.

Definition generateDevDependencies (packageManager : PmRef)
  (isTypeScript : bool) : json :=
  if negb isTypeScript then JObj []
  else
    let base := [("@types/node", JStr "^20.0.0");
                 ("typescript", JStr "^5.0.0")] in
    if is_string (ref_name packageManager) "bun" then JObj base
    else JObj (base ++ [("ts-node-dev", JStr "^2.0.0")]).

(** *** create.ts *)

Record CreateOptions := {
  typescript : option bool;
  javascript : option bool;
}.

Definition createProjectStructure (projectPath : path)
  (options : CreateOptions) : M unit :=
  let dirs := ["src"; "src/routes"; "src/middleware"; "src/utils"; "public"] in
  for_each dirs (λ dir, mkdirSync (Path.join projectPath dir)).

Definition getTemplateFiles (template ext : string)
  : list (string * string) :=
  let isTS := String.eqb ext "ts" in
  [("src/index." +:+ ext, getMainTemplate T template isTS);
   ("README.md", getReadmeTemplate T);
   (".gitignore", getGitignoreTemplate T)]
  ++ (if isTS then [("tsconfig.json", getTsConfigTemplate T)] else []).

Definition copyTemplateFiles (projectPath : path) (template : string)
  (useJS : option bool) : M unit :=
  let ext := if Js.truthy_bool useJS then "js" else "ts" in
  let files := getTemplateFiles template ext in
  for_each files (λ entry,
    let fullPath := Path.join projectPath (fst entry) in
    mkdirSync (Path.dirname fullPath);;
    writeFileSync fullPath (snd entry)).

(** The object literal [packageJson] of [createPackageJson]. *)
Definition packageJson_of (projectName : string) (isTS : bool)
  (packageManager : PmRef) : json :=
  JObj
    ([("name", JStr projectName);
      ("version", JStr "1.0.0");
      ("description",
         JStr "A new Atomik project created with basic template");
      ("main", JStr (if isTS then "dist/index.js" else "src/index.js"));
      ("scripts", generateScripts packageManager isTS);
      ("keywords", JArr [JStr "atomik"; JStr "web"; JStr "framework"]);
      ("author", JStr "");
      ("license", JStr "MIT");
      ("dependencies", JObj [("atomikjs", JStr "^1.0.0")]);
      ("devDependencies", generateDevDependencies packageManager isTS)]
     ++ (if negb (is_string (ref_name packageManager) "npm") then
           [("packageManager",
              JStr (Js.interpolate (ref_name packageManager) +:+ "@latest"))]
         else [])).

Definition createPackageJson (projectPath : path) (projectName : string)
  (options : CreateOptions) : M unit :=
  let isTS := negb (Js.truthy_bool (javascript options)) in
  packageManager ← call_detectPackageManager (Some projectPath);
  let packageJson := packageJson_of projectName isTS packageManager in
  writeFileSync (Path.join projectPath "package.json")
    (JSON_stringify P packageJson 2).

(** The body of the [try] block of [createProject]. *)
Definition createProject_steps (projectPath : path) (projectName : string)
  (options : CreateOptions) : M unit :=
  createProjectStructure projectPath options;;
  copyTemplateFiles projectPath "basic" (javascript options);;
  createPackageJson projectPath projectName options;;
  packageManager ← call_detectPackageManager (Some projectPath);
  installDependencies packageManager projectPath.

(** The [catch] block of [createProject]. *)
Definition createProject_cleanup (projectPath : path) (error : JsError)
  : M unit :=
  console_error "❌ Error creating project:" (Some error);;
  found ← existsSync projectPath;
  (if found : bool then rmSync projectPath else mret tt);;
  process_exit 1.

Definition createProject (projectName : string) (options : CreateOptions)
  : M unit :=
  currentDir ← process_cwd;
  let projectPath := Path.resolve currentDir projectName in
  found ← existsSync projectPath;
  (if found : bool then
     console_error
       ("❌ Directory " +:+ projectName +:+ " already exists!") None;;
     process_exit 1
   else mret tt);;
  mkdirSync projectPath;;
  try_catch
    (createProject_steps projectPath projectName options)
    (createProject_cleanup projectPath).

End Program.

(** ** A JSON codec to run the generator on concrete inputs

    [JSON.parse] and [JSON.stringify] belong to the platform. To execute
    the model on concrete directories the platform is instantiated with
    this codec for byte strings: objects, arrays, strings with the usual
    escapes, integers, booleans and [null]; [stringify] lays the text out
    as [JSON.stringify(value, null, indent)] does. *)

Module Json.

Definition quote : ascii := "034"%char.
Definition backslash : ascii := "\"%char.
Definition newline : ascii := "010"%char.

Definition str (c : ascii) : string := String c "".

(** **** Printing *)

Definition escape_char (c : ascii) : string :=
  if Ascii.eqb c quote then String backslash (str quote)
  else if Ascii.eqb c backslash then String backslash (str backslash)
  else if Ascii.eqb c newline then String backslash "n"
  else if Ascii.eqb c "009"%char then String backslash "t"
  else if Ascii.eqb c "013"%char then String backslash "r"
  else str c.

Fixpoint escape (s : string) : string :=
  match s with
  | EmptyString => ""
  | String c s' => escape_char c +:+ escape s'
  end.

Definition print_string (s : string) : string :=
  str quote +:+ escape s +:+ str quote.

Fixpoint spaces (n : nat) : string :=
  match n with
  | O => ""
  | S n' => String " " (spaces n')
  end.

Fixpoint digits_of (fuel : nat) (n : N) (acc : string) : string :=
  match fuel with
  | O => acc
  | S fuel' =>
      let d := ascii_of_N (48 + N.modulo n 10) in
      let acc' := String d acc in
      if N.eqb (N.div n 10) 0 then acc'
      else digits_of fuel' (N.div n 10) acc'
  end.

Definition print_Z (n : Z) : string :=
  let m := Z.abs_N n in
  (if Z.ltb n 0 then "-" else "") +:+ digits_of (S (N.to_nat (N.log2 m))) m "".

Fixpoint join_lines (sep : string) (l : list string) : string :=
  match l with
  | [] => ""
  | [x] => x
  | x :: rest => x +:+ sep +:+ join_lines sep rest
  end.

(** [print indent level v]: [level] is the nesting depth of [v]. *)
Fixpoint print (indent level : nat) (v : json) : string :=
  let inner := spaces (indent * S level) in
  let outer := spaces (indent * level) in
  let nl := str newline in
  match v with
  | JNull => "null"
  | JBool true => "true"
  | JBool false => "false"
  | JNum n => print_Z n
  | JStr s => print_string s
  | JArr [] => "[]"
  | JArr items =>
      "[" +:+ nl +:+
      join_lines ("," +:+ nl)
        (map (λ x, inner +:+ print indent (S level) x) items)
      +:+ nl +:+ outer +:+ "]"
  | JObj [] => "{}"
  | JObj fields =>
      "{" +:+ nl +:+
      join_lines ("," +:+ nl)
        ((fix members (l : list (string * json)) : list string :=
            match l with
            | [] => []
            | (k, x) :: rest =>
                (inner +:+ print_string k +:+ ": " +:+ print indent (S level) x)
                :: members rest
            end) fields)
      +:+ nl +:+ outer +:+ "}"
  end.

Definition stringify (v : json) (indent : nat) : string := print indent 0 v.

(** **** Parsing *)

Definition is_ws (c : ascii) : bool :=
  Ascii.eqb c " " || Ascii.eqb c newline || Ascii.eqb c "009"%char
  || Ascii.eqb c "013"%char.

Fixpoint skip_ws (s : string) : string :=
  match s with
  | EmptyString => ""
  | String c s' => if is_ws c then skip_ws s' else s
  end.

Definition unescape (c : ascii) : option ascii :=
  if Ascii.eqb c quote then Some quote
  else if Ascii.eqb c backslash then Some backslash
  else if Ascii.eqb c "/" then Some "/"%char
  else if Ascii.eqb c "n" then Some newline
  else if Ascii.eqb c "t" then Some "009"%char
  else if Ascii.eqb c "r" then Some "013"%char
  else None.

(** The text after an opening quote: the string it spells and what
    follows the closing quote. *)
Fixpoint parse_string_body (s acc : string) : option (string * string) :=
  match s with
  | EmptyString => None
  | String c s' =>
      if Ascii.eqb c quote then Some (acc, s')
      else if Ascii.eqb c backslash then
        match s' with
        | EmptyString => None
        | String e s'' =>
            match unescape e with
            | Some d => parse_string_body s'' (acc +:+ str d)
            | None => None
            end
        end
      else parse_string_body s' (acc +:+ str c)
  end.

Definition is_digit (c : ascii) : bool :=
  (48 <=? nat_of_ascii c)%nat && (nat_of_ascii c <=? 57)%nat.

Fixpoint parse_digits (s : string) (acc : Z) : Z * string :=
  match s with
  | EmptyString => (acc, "")
  | String c s' =>
      if is_digit c
      then parse_digits s' (10 * acc + Z.of_nat (nat_of_ascii c - 48))%Z
      else (acc, s)
  end.

Definition strip_prefix (p s : string) : option string :=
  if String.prefix p s
  then Some (String.substring (String.length p)
               (String.length s - String.length p) s)
  else None.

Fixpoint parse_value (fuel : nat) (s : string) : option (json * string) :=
  match fuel with
  | O => None
  | S fuel' =>
      match skip_ws s with
      | EmptyString => None
      | String c rest =>
          if Ascii.eqb c quote then
            match parse_string_body rest "" with
            | Some (x, rest') => Some (JStr x, rest')
            | None => None
            end
          else if Ascii.eqb c "[" then
            match skip_ws rest with
            | String "]" rest' => Some (JArr [], rest')
            | _ => parse_elements fuel' rest []
            end
          else if Ascii.eqb c "{" then
            match skip_ws rest with
            | String "}" rest' => Some (JObj [], rest')
            | _ => parse_members fuel' rest []
            end
          else if Ascii.eqb c "-" then
            match rest with
            | String d _ =>
                if is_digit d then
                  let '(n, rest') := parse_digits rest 0 in
                  Some (JNum (- n), rest')
                else None
            | EmptyString => None
            end
          else if is_digit c then
            let '(n, rest') := parse_digits (String c rest) 0 in
            Some (JNum n, rest')
          else
            match strip_prefix "true" (String c rest) with
            | Some rest' => Some (JBool true, rest')
            | None =>
                match strip_prefix "false" (String c rest) with
                | Some rest' => Some (JBool false, rest')
                | None =>
                    match strip_prefix "null" (String c rest) with
                    | Some rest' => Some (JNull, rest')
                    | None => None
                    end
                end
            end
      end
  end
with parse_elements (fuel : nat) (s : string) (acc : list json)
  : option (json * string) :=
  match fuel with
  | O => None
  | S fuel' =>
      match parse_value fuel' s with
      | Some (v, rest) =>
          match skip_ws rest with
          | String "," rest' => parse_elements fuel' rest' (acc ++ [v])
          | String "]" rest' => Some (JArr (acc ++ [v]), rest')
          | _ => None
          end
      | None => None
      end
  end
with parse_members (fuel : nat) (s : string) (acc : list (string * json))
  : option (json * string) :=
  match fuel with
  | O => None
  | S fuel' =>
      match skip_ws s with
      | String c rest =>
          if Ascii.eqb c quote then
            match parse_string_body rest "" with
            | Some (k, rest1) =>
                match skip_ws rest1 with
                | String ":" rest2 =>
                    match parse_value fuel' rest2 with
                    | Some (v, rest3) =>
                        match skip_ws rest3 with
                        | String "," rest4 =>
                            parse_members fuel' rest4 (Assoc.set acc k v)
                        | String "}" rest4 =>
                            Some (JObj (Assoc.set acc k v), rest4)
                        | _ => None
                        end
                    | None => None
                    end
                | _ => None
                end
            | None => None
            end
          else None
      | EmptyString => None
      end
  end.

Definition parse (s : string) : option json :=
  match parse_value (2 * String.length s + 2) s with
  | Some (v, rest) =>
      match skip_ws rest with
      | EmptyString => Some v
      | _ => None
      end
  | None => None
  end.

End Json.

(** ** Concrete platforms and states for the scenarios *)

Module Scenario.

(** An install command that populates [node_modules] in its working
    directory. *)
Definition install_ok (cmd : string) (dir : path)
  (e : gmap string string) (t : node) : bool * node :=
  match Fs.mkdir_p t (dir ++ ["node_modules"]) with
  | Some t' => (true, t')
  | None => (false, t)
  end.

(** An install command that leaves a partial [node_modules] behind and
    exits with a non-zero status. *)
Definition install_fails (cmd : string) (dir : path)
  (e : gmap string string) (t : node) : bool * node :=
  (false, default t (Fs.mkdir_p t (dir ++ ["node_modules"; ".tmp"]))).

(** Only the managers listed in [installed] answer [--version]. *)
Definition platform (installed : list string)
  (install : string → path → gmap string string → node → bool * node)
  : Platform := {|
  os_refuses := λ _ _, false;
  version_probe := λ cmd,
    existsb (λ m, String.eqb cmd (m +:+ " --version")) installed;
  execSync := install;
  JSON_parse := Json.parse;
  JSON_stringify := Json.stringify;
|}.

(** The same platform on a disk that refuses every file write. *)
Definition read_only (installed : list string) : Platform := {|
  os_refuses := λ call _,
    match call with CallWriteFile _ => true | _ => false end;
  version_probe := version_probe (platform installed install_ok);
  execSync := install_ok;
  JSON_parse := Json.parse;
  JSON_stringify := Json.stringify;
|}.

(** Template bodies cut down to their first line. *)
Definition templates : Templates := {|
  getMainTemplate := λ _ isTS,
    if isTS then "import { Atomik, cors } from 'atomikjs';"
    else "const { Atomik, cors } = require('atomikjs');";
  getReadmeTemplate := "# Atomik Project";
  getGitignoreTemplate := "node_modules/";
  getTsConfigTemplate := "{}";
|}.

(** [/home/dev], empty. *)
Definition home : node := Dir [("home", Dir [("dev", Fs.empty_dir)])].

Definition start (t : node) (e : list (string * string)) : State := {|
  fs := t;
  cwd := ["home"; "dev"];
  env := list_to_map e;
  trace := [];
|}.

Definition ts_options : CreateOptions :=
  {| typescript := Some true; javascript := None |}.

Definition js_options : CreateOptions :=
  {| typescript := Some true; javascript := Some true |}.

(** A directory with the lock files of two managers and the config file
    of a third. *)
Definition two_lock_files : node :=
  Dir [("app", Dir [("package-lock.json", File "{}");
                    ("yarn.lock", File "");
                    (".pnpmrc", File "")])].

(** A directory with the lock file of one manager and the config file of
    another. *)
Definition yarn_lock_pnpm_config : node :=
  Dir [("app", Dir [("yarn.lock", File ""); (".pnpmrc", File "")])].

(** A manifest whose [packageManager] names a member that every object
    inherits, and a directory that holds it. *)
Definition inherited_manifest : json :=
  JObj [("name", JStr "app"); ("packageManager", JStr "constructor@1.0.0")].

Definition inherited_project : node :=
  Dir [("app",
        Dir [("package.json", File (Json.stringify inherited_manifest 2))])].

(** [/home/dev] with an entry [demo] in it. *)
Definition home_with (entry : node) : node :=
  Dir [("home", Dir [("dev", Dir [("demo", entry)])])].

End Scenario.

(** ** The project directory at the stages of a creation

    What the directory of a project holds once the skeleton is in place,
    once the template files are written, and once the manifest is
    written. *)

Section Stages.

Context (T : Templates).

Definition src_skeleton : list (string * node) :=
  [("routes", Fs.empty_dir); ("middleware", Fs.empty_dir);
   ("utils", Fs.empty_dir)].

Definition skeleton : node :=
  Dir [("src", Dir src_skeleton); ("public", Fs.empty_dir)].

Definition templated_entries (isTS : bool) : list (string * node) :=
  [("src",
     Dir
       (src_skeleton ++
        [(if isTS then "index.ts" else "index.js",
          File (getMainTemplate T "basic" isTS))]));
   ("public", Fs.empty_dir);
   ("README.md", File (getReadmeTemplate T));
   (".gitignore", File (getGitignoreTemplate T))]
  ++ (if isTS then [("tsconfig.json", File (getTsConfigTemplate T))]
      else []).

Definition templated (isTS : bool) : node :=
  Dir (templated_entries isTS).

Definition complete (isTS : bool) (manifest : string) : node :=
  Dir (templated_entries isTS ++ [("package.json", File manifest)]).

(** The calls of a creation in which no step fails, in the order the
    generator makes them: the skeleton, the template files, the first
    resolution and the manifest it shapes, the second resolution and the
    install it runs. *)
Definition structure_events (p : path) : list Event :=
  map (λ dir, EvMkdir (Path.join p dir))
    ["src"; "src/routes"; "src/middleware"; "src/utils"; "public"].

Definition template_events (p : path) (files : list (string * string))
  : list Event :=
  flat_map
    (λ entry,
       [EvMkdir (Path.dirname (Path.join p (fst entry)));
        EvWriteFile (Path.join p (fst entry)) (snd entry)])
    files.

Definition manifest_events (p : path) (seen : node) (first : PmRef)
  (manifest : string) : list Event :=
  [EvResolve p seen first;
   EvWriteFile (Path.join p "package.json") manifest].

Definition install_events (p : path) (seen : node) (second : PmRef)
  (cmd : string) (back : path) : list Event :=
  [EvResolve p seen second; EvChdir p; EvExec cmd p; EvChdir back].

Definition creation_events (p : path) (isTS : bool)
  (seen1 : node) (first : PmRef) (manifest : string)
  (seen2 : node) (second : PmRef) (cmd : string) (back : path)
  : list Event :=
  structure_events p
  ++ template_events p
       (getTemplateFiles T "basic" (if isTS then "ts" else "js"))
  ++ manifest_events p seen1 first manifest
  ++ install_events p seen2 second cmd back.

Definition is_resolve (ev : Event) : bool :=
  match ev with EvResolve _ _ _ => true | _ => false end.

End Stages.

(** The cascade in the specification's words: the signals in their order
    of precedence (lock file, config file, manifest field, environment
    hint, availability), the first that yields a manager decides, and npm
    is the fallback. *)
Fixpoint first_some {A} (signals : list (option A)) : option A :=
  match signals with
  | [] => None
  | Some a :: _ => Some a
  | None :: rest => first_some rest
  end.

Definition resolve_by_precedence (P : Platform) (t : node) (dir : path)
  (e : gmap string string) : PmRef :=
  default (Known npm)
    (first_some
       [Known <$> lock_file_probe t dir;
        Known <$> config_file_probe t dir;
        manifest_field_probe P t dir;
        Known <$> user_agent_probe e;
        Known <$> availability_probe P]).

(** The managers that [Object.entries(PACKAGE_MANAGERS)] yields before
    [pm]. *)
Fixpoint managers_before_in (entries : list (string * PackageManager))
  (pm : PackageManager) : list PackageManager :=
  match entries with
  | [] => []
  | (_, pm') :: rest =>
      if String.eqb (name pm') (name pm) then []
      else pm' :: managers_before_in rest pm
  end.

Definition managers_before (pm : PackageManager) : list PackageManager :=
  managers_before_in PACKAGE_MANAGERS pm.

Definition has_lock_file (t : node) (dir : path) (pm : PackageManager)
  : bool :=
  Fs.exists_at t (Path.join dir (lockFile pm)).

Definition has_config_file (t : node) (dir : path) (pm : PackageManager)
  : bool :=
  match configFile pm with
  | Some cf => Fs.exists_at t (Path.join dir cf)
  | None => false
  end.

(** ** Observations on runs *)

(** [st'] differs from [st] by the events [evs] and, possibly, the file
    system. *)
Definition advances (evs : list Event) (st st' : State) : Prop :=
  cwd st' = cwd st ∧ env st' = env st ∧ trace st' = trace st ++ evs.

(** [m] does not call [process.exit]. *)
Definition never_exits {A} (m : M A) : Prop :=
  ∀ st code st', m st ≠ (Exit code, st').

(** [ev] is not a write of [tsconfig.json] in the directory [target]. *)
Definition not_tsconfig (target : path) (ev : Event) : Prop :=
  ∀ content, ev ≠ EvWriteFile (target ++ ["tsconfig.json"]) content.

(** Every event [m] adds to the trace satisfies [Q]. *)
Definition emits {A} (Q : Event → Prop) (m : M A) : Prop :=
  ∀ st r st', m st = (r, st') →
    ∃ evs, trace st' = trace st ++ evs ∧ Forall Q evs.

(** A call of [m] from a state in [I] ends in [N] when it completes and in
    [E] when it throws or exits. *)
Definition triple {A} (I : State → Prop) (m : M A) (N E : State → Prop)
  : Prop :=
  ∀ st r st', I st → m st = (r, st') →
    match r with
    | Normal _ => N st'
    | _ => E st'
    end.

(** [ev] is no call of [mkdirSync], [writeFileSync] or [rmSync] on a path
    outside the directory [target]. *)
Definition stays_below (target : path) (ev : Event) : Prop :=
  match ev with
  | EvMkdir q | EvWriteFile q _ | EvRm q => ∃ s, q = target ++ s
  | _ => True
  end.

(** * Facts *)

(** ** Association lists *)

Module AssocFacts.
Import Assoc.

Lemma get_set_eq {V} (l : list (string * V)) k v : get (set l k v) k = Some v.
Proof.
  induction l as [|[k' v'] l IH]; simpl.
  - by rewrite String.eqb_refl.
  - destruct (String.eqb k' k) eqn:E; simpl; by rewrite E.
Qed.

Lemma get_remove_eq {V} (l : list (string * V)) k : get (remove l k) k = None.
Proof.
  induction l as [|[k' v'] l IH]; simpl; [done|].
  destruct (String.eqb k' k) eqn:E; simpl; [done|]. by rewrite E.
Qed.

End AssocFacts.

(** ** The file system *)

Module FsFacts.
Import Fs.

Lemma stat_app t p s : stat t (p ++ s) = stat t p ≫= λ n, stat n s.
Proof.
  revert t. induction p as [|c p IH]; intros t; simpl; [done|].
  destruct t as [|ch]; [done|]. destruct (Assoc.get ch c); [apply IH | done].
Qed.

Lemma stat_below_missing t p s : stat t p = None → stat t (p ++ s) = None.
Proof. intros H. by rewrite stat_app, H. Qed.

Lemma stat_below t p s sub :
  stat t p = Some sub → stat t (p ++ s) = stat sub s.
Proof. intros H. by rewrite stat_app, H. Qed.

(** After [rm -rf p] nothing is left at or below [p]. *)
Lemma remove_gone t p s : p ≠ [] → stat (remove t p) (p ++ s) = None.
Proof.
  revert t. induction p as [|c p IH]; intros t Hp; [done|].
  destruct t as [content|ch]; [done|].
  destruct p as [|c' p'].
  - simpl. by rewrite AssocFacts.get_remove_eq.
  - change (remove (Dir ch) (c :: c' :: p')) with
      (match Assoc.get ch c with
       | Some sub => Dir (Assoc.set ch c (remove sub (c' :: p')))
       | None => Dir ch
       end).
    change ((c :: c' :: p') ++ s) with (c :: ((c' :: p') ++ s)).
    destruct (Assoc.get ch c) as [sub|] eqn:Hc.
    + simpl stat. rewrite AssocFacts.get_set_eq. by apply IH.
    + simpl stat. by rewrite Hc.
Qed.

Lemma mkdir_p_empty p :
  ∃ sub, mkdir_p empty_dir p = Some sub ∧ stat sub p = Some empty_dir.
Proof.
  induction p as [|c p (sub & Hm & Hs)]; [by eexists|].
  exists (Dir [(c, sub)]). simpl. rewrite Hm. split; [done|].
  by rewrite String.eqb_refl.
Qed.

(** [mkdir -p] on a path that does not exist yet leaves an empty
    directory there. *)
Lemma mkdir_p_fresh t p t' :
  stat t p = None → mkdir_p t p = Some t' → stat t' p = Some empty_dir.
Proof.
  revert t t'. induction p as [|c p IH]; intros t t' Hs Hm; [done|].
  destruct t as [|ch]; [done|]. simpl in *.
  destruct (Assoc.get ch c) as [t1|] eqn:Hc; simpl in Hm.
  - destruct (mkdir_p t1 p) as [sub|] eqn:Hsub; [|done].
    injection Hm as <-. simpl. rewrite AssocFacts.get_set_eq. by eapply IH.
  - destruct (mkdir_p_empty p) as (sub & Hsub & Hstat).
    rewrite Hsub in Hm. injection Hm as <-.
    simpl. by rewrite AssocFacts.get_set_eq.
Qed.

(** Operations below a directory [p] act on the subtree found at [p]. *)
Lemma mkdir_p_focus t p s sub :
  stat t p = Some sub →
  match mkdir_p sub s with
  | Some sub' => ∃ t', mkdir_p t (p ++ s) = Some t' ∧ stat t' p = Some sub'
  | None => mkdir_p t (p ++ s) = None
  end.
Proof.
  revert t. induction p as [|c p IH]; intros t Hs.
  - injection Hs as ->. simpl. destruct (mkdir_p sub s); eauto.
  - destruct t as [|ch]; [done|]. simpl in Hs.
    destruct (Assoc.get ch c) as [t1|] eqn:Hc; [|done].
    specialize (IH _ Hs). simpl. rewrite Hc. simpl.
    destruct (mkdir_p sub s) as [sub'|].
    + destruct IH as (t' & -> & Ht'). eexists. split; [done|].
      simpl. by rewrite AssocFacts.get_set_eq.
    + by rewrite IH.
Qed.

Lemma write_file_focus t p s content sub :
  stat t p = Some sub → s ≠ [] →
  match write_file sub s content with
  | Some sub' =>
      ∃ t', write_file t (p ++ s) content = Some t' ∧ stat t' p = Some sub'
  | None => write_file t (p ++ s) content = None
  end.
Proof.
  intros Hs Hne. revert t Hs. induction p as [|c p IH]; intros t Hs.
  - injection Hs as ->. simpl. destruct (write_file sub s content); eauto.
  - destruct t as [|ch]; [done|]. simpl in Hs.
    destruct (Assoc.get ch c) as [t1|] eqn:Hc; [|done].
    specialize (IH _ Hs).
    assert (∃ x l, p ++ s = x :: l) as (x & l & Hxl).
    { destruct p; simpl; [destruct s; [done|eauto] | eauto]. }
    change ((c :: p) ++ s) with (c :: (p ++ s)).
    simpl write_file at 2 3. rewrite Hxl, <- Hxl, Hc.
    destruct (write_file sub s content) as [sub'|].
    + destruct IH as (t' & -> & Ht'). eexists. split; [done|].
      simpl. by rewrite AssocFacts.get_set_eq.
    + by rewrite IH.
Qed.

End FsFacts.

(** ** Paths *)

Module PathFacts.
Import Path.

Lemma normalize_onto_plain base segs :
  forallb plain segs = true → normalize_onto base segs = base ++ segs.
Proof.
  unfold normalize_onto. revert base.
  induction segs as [|seg segs IH]; intros base H; simpl.
  - by rewrite app_nil_r.
  - apply andb_prop in H as [Hseg H]. rewrite IH by done.
    unfold push, plain in *.
    destruct (String.eqb seg ""); [done|].
    destruct (String.eqb seg "."); [done|].
    destruct (String.eqb seg ".."); [done|].
    by rewrite <- app_assoc.
Qed.

Lemma join_plain base rel :
  forallb plain (segments rel) = true → join base rel = base ++ segments rel.
Proof. apply normalize_onto_plain. Qed.

Lemma dirname_below base s :
  s ≠ [] → dirname (base ++ s) = base ++ removelast s.
Proof. intros H. unfold dirname. by apply removelast_app. Qed.

End PathFacts.

(** Rewrite every [Path.join] onto a relative path without [.] or [..]
    into an append, and every [Path.dirname] below it. *)
Ltac norm_paths :=
  repeat match goal with
    | |- context [Path.join ?b ?rel] =>
        rewrite (PathFacts.join_plain b rel) by reflexivity;
        let segs := eval vm_compute in (Path.segments rel) in
        change (Path.segments rel) with segs
    | |- context [Path.dirname (?b ++ ?s)] =>
        rewrite (PathFacts.dirname_below b s) by discriminate;
        let d := eval simpl in (removelast s) in
        change (removelast s) with d
    end.

Ltac norm_paths_in H :=
  repeat match type of H with
    | context [Path.join ?b ?rel] =>
        rewrite (PathFacts.join_plain b rel) in H by reflexivity;
        let segs := eval vm_compute in (Path.segments rel) in
        change (Path.segments rel) with segs in H
    | context [Path.dirname (?b ++ ?s)] =>
        rewrite (PathFacts.dirname_below b s) in H by discriminate;
        let d := eval simpl in (removelast s) in
        change (removelast s) with d in H
    end.

(** ** Running the generator *)

Lemma advances_refl st : advances [] st st.
Proof. unfold advances. by rewrite app_nil_r. Qed.

Lemma advances_trans evs1 evs2 st st' st'' :
  advances evs1 st st' → advances evs2 st' st'' →
  advances (evs1 ++ evs2) st st''.
Proof.
  intros (c1 & e1 & t1) (c2 & e2 & t2). unfold advances.
  rewrite c2, e2, t2, c1, e1, t1. by rewrite app_assoc.
Qed.

Lemma bind_Normal {A B} (m : M A) (f : A → M B) st b st'' :
  (m ≫= f) st = (Normal b, st'') →
  ∃ a st', m st = (Normal a, st') ∧ f a st' = (Normal b, st'').
Proof.
  unfold mbind, M_bind. destruct (m st) as [[a|e|code] st']; [eauto|done..].
Qed.

Section Focus.

Context (P : Platform).

(** A successful [mkdirSync] or [writeFileSync] below [p], seen from the
    subtree at [p]. *)
Lemma mkdirSync_focus p s sub st st' :
  Fs.stat (fs st) p = Some sub →
  mkdirSync P (p ++ s) st = (Normal tt, st') →
  Fs.stat (fs st') p = Fs.mkdir_p sub s ∧
  advances [EvMkdir (p ++ s)] st st'.
Proof.
  intros Hs. unfold mkdirSync.
  destruct (os_refuses P _ _); [done|].
  pose proof (FsFacts.mkdir_p_focus _ _ s _ Hs) as Hf.
  destruct (Fs.mkdir_p sub s) as [sub'|].
  - destruct Hf as (t' & -> & Ht'). by intros [= <-].
  - by rewrite Hf.
Qed.

Lemma writeFileSync_focus p s content sub st st' :
  Fs.stat (fs st) p = Some sub → s ≠ [] →
  writeFileSync P (p ++ s) content st = (Normal tt, st') →
  Fs.stat (fs st') p = Fs.write_file sub s content ∧
  advances [EvWriteFile (p ++ s) content] st st'.
Proof.
  intros Hs Hne. unfold writeFileSync.
  destruct (os_refuses P _ _); [done|].
  pose proof (FsFacts.write_file_focus _ _ s content _ Hs Hne) as Hf.
  destruct (Fs.write_file sub s content) as [sub'|].
  - destruct Hf as (t' & -> & Ht'). by intros [= <-].
  - by rewrite Hf.
Qed.

End Focus.

(** ** A creation in which every step succeeds

    Below the project directory [p] each call acts on the subtree found at
    [p]; the proofs follow that subtree from the empty directory to the
    complete project. *)

Ltac split_bind H H1 :=
  let a := fresh "a" in
  let st := fresh "st" in
  apply bind_Normal in H as (a & st & H1 & H);
  lazymatch type of a with
  | unit => destruct a
  | _ => idtac
  end.

(** One successful call below the focus: [Hfocus] and [Hadv] are moved
    past it. *)
Ltac focus_call H Hfocus Hadv :=
  let Hf := fresh "Hf" in
  let Ha := fresh "Ha" in
  let E := fresh "E" in
  lazymatch type of H with
  | mkdirSync _ (_ ++ _) _ = _ =>
      destruct (mkdirSync_focus _ _ _ _ _ _ Hfocus H) as (Hf & Ha)
  | writeFileSync _ (_ ++ ?s) _ _ = _ =>
      let Hne := fresh "Hne" in
      assert (s ≠ []) as Hne by discriminate;
      destruct (writeFileSync_focus _ _ _ _ _ _ _ Hfocus Hne H) as (Hf & Ha);
      clear Hne
  end;
  lazymatch type of Hf with
  | _ = ?rhs =>
      let r := eval vm_compute in rhs in
      assert (rhs = r) as E by (vm_compute; reflexivity);
      apply (λ X, eq_trans X E) in Hf; clear E
  end;
  apply (advances_trans _ _ _ _ _ Hadv) in Ha;
  clear Hfocus Hadv H;
  rename Hf into Hfocus; rename Ha into Hadv.

Ltac focus_run H Hfocus Hadv :=
  lazymatch type of H with
  | (_ ≫= _) _ = _ =>
      let H1 := fresh "Hcall" in
      split_bind H H1; focus_run H1 Hfocus Hadv; focus_run H Hfocus Hadv
  | mret _ _ = _ => cbv beta delta [mret M_ret] in H; injection H as <-
  | _ => focus_call H Hfocus Hadv
  end.

Section Success.
Context (P : Platform) (T : Templates).

Lemma createProjectStructure_ok p options st st' :
  Fs.stat (fs st) p = Some Fs.empty_dir →
  createProjectStructure P p options st = (Normal tt, st') →
  Fs.stat (fs st') p = Some skeleton ∧
  advances (structure_events p) st st'.
Proof.
  intros Hfocus Hrun. pose proof (advances_refl st) as Hadv.
  unfold createProjectStructure in Hrun. unfold structure_events.
  simpl for_each in Hrun. simpl map. norm_paths_in Hrun. norm_paths.
  focus_run Hrun Hfocus Hadv. by split.
Qed.

Lemma copyTemplateFiles_ok p useJS st st' :
  Fs.stat (fs st) p = Some skeleton →
  copyTemplateFiles P T p "basic" useJS st = (Normal tt, st') →
  Fs.stat (fs st') p = Some (templated T (negb (Js.truthy_bool useJS))) ∧
  advances
    (template_events p
       (getTemplateFiles T "basic"
          (if negb (Js.truthy_bool useJS) then "ts" else "js")))
    st st'.
Proof.
  intros Hfocus Hrun. pose proof (advances_refl st) as Hadv.
  unfold copyTemplateFiles in Hrun. unfold template_events.
  destruct (Js.truthy_bool useJS);
    simpl in Hrun; simpl flat_map; norm_paths_in Hrun; norm_paths;
    focus_run Hrun Hfocus Hadv; by split.
Qed.

Lemma exists_at_focus t p s sub :
  Fs.stat t p = Some sub → Fs.exists_at t (p ++ s) = Fs.exists_at sub s.
Proof. intros H. unfold Fs.exists_at. by rewrite (FsFacts.stat_below _ _ _ _ H). Qed.

Lemma read_file_focus t p s sub :
  Fs.stat t p = Some sub → Fs.read_file t (p ++ s) = Fs.read_file sub s.
Proof. intros H. unfold Fs.read_file. by rewrite (FsFacts.stat_below _ _ _ _ H). Qed.

Lemma lock_file_probe_focus t p sub :
  Fs.stat t p = Some sub → lock_file_probe t p = lock_file_probe sub [].
Proof.
  intros H. unfold lock_file_probe. simpl. norm_paths.
  by rewrite !(exists_at_focus _ _ _ _ H).
Qed.

Lemma config_file_probe_focus t p sub :
  Fs.stat t p = Some sub → config_file_probe t p = config_file_probe sub [].
Proof.
  intros H. unfold config_file_probe. simpl. norm_paths.
  by rewrite !(exists_at_focus _ _ _ _ H).
Qed.

(** Probes 1 to 3 miss in a directory that holds the skeleton and the
    template files only. *)
Lemma detect_templated t p isTS currentDir e :
  Fs.stat t p = Some (templated T isTS) →
  detectPackageManager P t currentDir e (Some p)
  = Known (resolve_without_directory P e).
Proof.
  intros H. unfold detectPackageManager. simpl default.
  rewrite (lock_file_probe_focus _ _ _ H), (config_file_probe_focus _ _ _ H).
  unfold manifest_field_probe. norm_paths.
  rewrite (exists_at_focus _ _ _ _ H). by destruct isTS.
Qed.

Lemma createPackageJson_ok p projectName options st st' :
  let isTS := negb (Js.truthy_bool (javascript options)) in
  let first := Known (resolve_without_directory P (env st)) in
  let manifest := JSON_stringify P (packageJson_of projectName isTS first) 2 in
  Fs.stat (fs st) p = Some (templated T isTS) →
  createPackageJson P p projectName options st = (Normal tt, st') →
  Fs.stat (fs st') p = Some (complete T isTS manifest) ∧
  advances (manifest_events p (fs st) first manifest) st st'.
Proof.
  intros isTS first manifest Hfocus Hrun.
  unfold createPackageJson in Hrun.
  split_bind Hrun Hdetect. unfold call_detectPackageManager in Hdetect.
  rewrite (detect_templated _ _ _ _ _ Hfocus) in Hdetect.
  injection Hdetect as <- <-.
  change (writeFileSync P (Path.join p "package.json") manifest
            (log (EvResolve p (fs st) first) st) = (Normal (), st')) in Hrun.
  clearbody manifest.
  unfold manifest_events. norm_paths_in Hrun. norm_paths.
  set (t1 := fs st) in Hrun |- *.
  assert (advances [EvResolve p t1 first] st
            (log (EvResolve p t1 first) st)) as Hadv by done.
  change (fs st) with (fs (log (EvResolve p t1 first) st)) in Hfocus.
  clearbody t1.
  subst isTS. destruct (Js.truthy_bool (javascript options)); simpl negb in *.
  all: focus_run Hrun Hfocus Hadv.
  all: by split.
Qed.

Lemma resolve_without_directory_cases e :
  In (resolve_without_directory P e) [pnpm; yarn; bun; npm].
Proof.
  unfold resolve_without_directory, user_agent_probe.
  assert (In (default npm (availability_probe P)) [pnpm; yarn; bun; npm]) as Hav.
  { unfold availability_probe, availableManagers, PACKAGE_MANAGERS.
    simpl List.filter.
    destruct (version_probe P _); destruct (version_probe P _);
      destruct (version_probe P _); destruct (version_probe P _);
      simpl; tauto. }
  destruct (Js.truthy_string _).
  - destruct (Js.includes "pnpm" _); [simpl; tauto|].
    destruct (Js.includes "yarn" _); [simpl; tauto|].
    destruct (Js.includes "bun" _); [simpl; tauto|].
    by destruct (availability_probe P).
  - by destruct (availability_probe P).
Qed.

Lemma packageManager_field_of_manifest projectName isTS pm :
  In pm [pnpm; yarn; bun; npm] →
  packageManager_field (packageJson_of projectName isTS (Known pm))
  = if String.eqb (name pm) "npm" then None else Some (Known pm).
Proof.
  simpl. intros [<-|[<-|[<-|[<-|[]]]]]; by destruct isTS.
Qed.

(** Once the manifest is written, resolving again gives the manager the
    manifest was shaped for, provided the manifest text parses back. *)
Lemma detect_complete t p isTS projectName currentDir e :
  let first := Known (resolve_without_directory P e) in
  let manifest := JSON_stringify P (packageJson_of projectName isTS first) 2 in
  Fs.stat t p = Some (complete T isTS manifest) →
  JSON_parse P manifest = Some (packageJson_of projectName isTS first) →
  detectPackageManager P t currentDir e (Some p) = first.
Proof.
  intros first manifest H Hparse. unfold detectPackageManager. simpl default.
  rewrite (lock_file_probe_focus _ _ _ H), (config_file_probe_focus _ _ _ H).
  unfold manifest_field_probe. norm_paths.
  rewrite (exists_at_focus _ _ _ _ H), (read_file_focus _ _ _ _ H).
  clearbody manifest.
  assert (lock_file_probe (complete T isTS manifest) [] = None) as ->
    by by destruct isTS.
  assert (config_file_probe (complete T isTS manifest) [] = None) as ->
    by by destruct isTS.
  assert (Fs.exists_at (complete T isTS manifest) ["package.json"] = true)
    as -> by by destruct isTS.
  assert (Fs.read_file (complete T isTS manifest) ["package.json"]
          = Some manifest) as -> by by destruct isTS.
  destruct (os_refuses P _ _); [done|].
  rewrite Hparse. unfold first.
  rewrite packageManager_field_of_manifest
    by apply resolve_without_directory_cases.
  pose proof (resolve_without_directory_cases e) as Hpm. simpl in Hpm.
  by destruct Hpm as [<-|[<-|[<-|[<-|[]]]]].
Qed.

Lemma installDependencies_Normal r p st st' :
  installDependencies P r p st = (Normal tt, st') →
  ∃ cmd, ref_installCommand r = Some cmd ∧
         Fs.is_dir (fs st) p = true ∧
         execSync P cmd p (env st) (fs st) = (true, fs st') ∧
         advances [EvChdir p; EvExec cmd p; EvChdir (cwd st)] st st'.
Proof.
  unfold installDependencies, mbind, M_bind, process_cwd, process_chdir,
    try_finally, execSync_inherit.
  simpl. destruct (Fs.is_dir (fs st) p) eqn:Hdir; [|done].
  destruct (ref_installCommand r) as [cmd|]; simpl.
  - destruct (execSync P cmd p (env st) (fs st)) as [[] t'] eqn:Hexec; simpl.
    + destruct (Fs.is_dir t' (cwd st)); intros [= <-]; [|done..].
      exists cmd. repeat split; try done.
      simpl. by rewrite <- !app_assoc.
    + by destruct (Fs.is_dir t' (cwd st)).
  - by destruct (Fs.is_dir (fs st) (cwd st)).
Qed.

Lemma createProject_steps_ok p projectName options st st' :
  let isTS := negb (Js.truthy_bool (javascript options)) in
  let first := Known (resolve_without_directory P (env st)) in
  let manifest := JSON_stringify P (packageJson_of projectName isTS first) 2 in
  Fs.stat (fs st) p = Some Fs.empty_dir →
  createProject_steps P T p projectName options st = (Normal tt, st') →
  ∃ t1 t2 cmd,
    let second := detectPackageManager P t2 (cwd st) (env st) (Some p) in
    Fs.stat t1 p = Some (templated T isTS) ∧
    Fs.stat t2 p = Some (complete T isTS manifest) ∧
    ref_installCommand second = Some cmd ∧
    execSync P cmd p (env st) t2 = (true, fs st') ∧
    advances
      (creation_events T p isTS t1 first manifest t2 second cmd (cwd st))
      st st'.
Proof.
  intros isTS first manifest Hfocus Hrun. unfold createProject_steps in Hrun.
  split_bind Hrun Hstructure. split_bind Hrun Htemplates.
  split_bind Hrun Hmanifest. split_bind Hrun Hsecond.
  apply createProjectStructure_ok in Hstructure as [Hfocus1 Hadv1]; [|done].
  apply copyTemplateFiles_ok in Htemplates as [Hfocus2 Hadv2]; [|done].
  pose proof Hfocus2 as Hseen1.
  apply createPackageJson_ok in Hmanifest as [Hfocus3 Hadv3]; [|done].
  injection Hsecond as <- <-.
  apply installDependencies_Normal in Hrun as (cmd & Hcmd & _ & Hexec & Hadv5).
  pose proof (advances_trans _ _ _ _ _ Hadv1 Hadv2) as Hadv12.
  destruct Hadv12 as (Hcwd & Henv & _).
  destruct Hadv3 as (Hcwd3 & Henv3 & Htrace3).
  rewrite Henv in Hfocus3, Htrace3.
  simpl in Hexec, Hadv5, Hcmd. rewrite Hcwd3, Hcwd in Hadv5, Hcmd.
  rewrite Henv3, Henv in Hexec, Hcmd.
  exists (fs st1), (fs st2), cmd. repeat split; try done.
  - destruct Hadv5 as (-> & _). simpl. by rewrite Hcwd3.
  - destruct Hadv5 as (_ & -> & _). simpl. by rewrite Henv3.
  - destruct Hadv5 as (_ & _ & ->). simpl. rewrite Htrace3.
    destruct Hadv2 as (_ & _ & ->). destruct Hadv1 as (_ & _ & ->).
    unfold creation_events, install_events, log; simpl trace.
    rewrite ?Hcwd3, ?Hcwd, ?Henv3, ?Henv. by rewrite <- !app_assoc.
Qed.

End Success.

(** ** What every run does, whatever fails

    Both properties follow the structure of the code. *)

Section Behaviour.

Context (P : Platform) (T : Templates).

Lemma never_exits_ret {A} (a : A) : never_exits (mret a).
Proof. by intros st code st'. Qed.

Lemma never_exits_bind {A B} (m : M A) (f : A → M B) :
  never_exits m → (∀ a, never_exits (f a)) → never_exits (m ≫= f).
Proof.
  intros Hm Hf st code st'. unfold mbind, M_bind.
  destruct (m st) as [[a|e|c] st1] eqn:E; [apply Hf|done|].
  by destruct (Hm st c st1).
Qed.

Lemma never_exits_for_each {A} (l : list A) (f : A → M unit) :
  (∀ x, never_exits (f x)) → never_exits (for_each l f).
Proof.
  intros Hf. induction l as [|x l IH]; simpl.
  - apply never_exits_ret.
  - by apply never_exits_bind.
Qed.

Lemma never_exits_try_finally {A} (body : M A) (cleanup : M unit) :
  never_exits body → never_exits cleanup →
  never_exits (try_finally body cleanup).
Proof.
  intros Hb Hc st code st'. unfold try_finally.
  destruct (body st) as [[a|e|c] st1] eqn:E.
  - destruct (cleanup st1) as [[[]|e|c] st2] eqn:E'; try done.
    by destruct (Hc st1 c st2).
  - destruct (cleanup st1) as [[[]|e'|c] st2] eqn:E'; try done.
    by destruct (Hc st1 c st2).
  - by destruct (Hb st c st1).
Qed.

Lemma never_exits_mkdirSync p : never_exits (mkdirSync P p).
Proof.
  intros st code st'. unfold mkdirSync.
  destruct (os_refuses P _ _); [done|]. by destruct (Fs.mkdir_p _ _).
Qed.

Lemma never_exits_writeFileSync p content :
  never_exits (writeFileSync P p content).
Proof.
  intros st code st'. unfold writeFileSync.
  destruct (os_refuses P _ _); [done|]. by destruct (Fs.write_file _ _ _).
Qed.

Lemma never_exits_process_chdir p : never_exits (process_chdir p).
Proof.
  intros st code st'. unfold process_chdir. by destruct (Fs.is_dir _ _).
Qed.

Lemma never_exits_execSync_inherit cmd : never_exits (execSync_inherit P cmd).
Proof.
  intros st code st'. unfold execSync_inherit. destruct cmd as [c|]; [|done].
  by destruct (execSync P c _ _ _) as [[] t'].
Qed.

Lemma never_exits_installDependencies r p :
  never_exits (installDependencies P r p).
Proof.
  unfold installDependencies.
  apply never_exits_bind; [done|intros originalCwd].
  apply never_exits_bind; [apply never_exits_process_chdir|intros _].
  apply never_exits_try_finally;
    [apply never_exits_execSync_inherit | apply never_exits_process_chdir].
Qed.

Lemma never_exits_createProject_steps p projectName options :
  never_exits (createProject_steps P T p projectName options).
Proof.
  unfold createProject_steps.
  apply never_exits_bind; [|intros _].
  { apply never_exits_for_each. intros dir. apply never_exits_mkdirSync. }
  apply never_exits_bind; [|intros _].
  { apply never_exits_for_each. intros entry.
    apply never_exits_bind; [apply never_exits_mkdirSync|intros _].
    apply never_exits_writeFileSync. }
  apply never_exits_bind; [|intros _].
  { apply never_exits_bind; [done|intros r].
    apply never_exits_writeFileSync. }
  apply never_exits_bind; [done|intros r].
  apply never_exits_installDependencies.
Qed.

(** *** Events *)

Lemma emits_quiet {A} Q (m : M A) :
  (∀ st, trace (m st).2 = trace st) → emits Q m.
Proof.
  intros H st r st' E. exists []. split; [|done].
  specialize (H st). rewrite E in H. simpl in H. by rewrite app_nil_r.
Qed.

Lemma emits_one {A} (Q : Event → Prop) (m : M A) ev :
  Q ev → (∀ st, trace (m st).2 = trace st ++ [ev]) → emits Q m.
Proof.
  intros HQ H st r st' E. exists [ev]. split; [|by constructor].
  specialize (H st). by rewrite E in H.
Qed.

Lemma emits_bind {A B} Q (m : M A) (f : A → M B) :
  emits Q m → (∀ a, emits Q (f a)) → emits Q (m ≫= f).
Proof.
  intros Hm Hf st r st'. unfold mbind, M_bind.
  destruct (m st) as [[a|e|c] st1] eqn:E;
    destruct (Hm _ _ _ E) as (evs1 & Ht1 & HQ1).
  - intros E2. destruct (Hf _ _ _ _ E2) as (evs2 & Ht2 & HQ2).
    exists (evs1 ++ evs2). split; [|by apply Forall_app].
    by rewrite Ht2, Ht1, app_assoc.
  - intros [= <- <-]. eauto.
  - intros [= <- <-]. eauto.
Qed.

Lemma emits_for_each {A} Q (l : list A) (f : A → M unit) :
  (∀ x, x ∈ l → emits Q (f x)) → emits Q (for_each l f).
Proof.
  induction l as [|x l IH]; intros Hf; simpl.
  - by apply emits_quiet.
  - apply emits_bind; [apply Hf; by left|intros _].
    apply IH. intros y Hy. apply Hf. by right.
Qed.

Lemma emits_try_catch {A} Q (body : M A) (handler : JsError → M A) :
  emits Q body → (∀ e, emits Q (handler e)) →
  emits Q (try_catch body handler).
Proof.
  intros Hb Hh st r st'. unfold try_catch.
  destruct (body st) as [[a|e|c] st1] eqn:E;
    destruct (Hb _ _ _ E) as (evs1 & Ht1 & HQ1).
  - intros [= <- <-]. eauto.
  - intros E2. destruct (Hh _ _ _ _ E2) as (evs2 & Ht2 & HQ2).
    exists (evs1 ++ evs2). split; [|by apply Forall_app].
    by rewrite Ht2, Ht1, app_assoc.
  - intros [= <- <-]. eauto.
Qed.

Lemma emits_try_finally {A} Q (body : M A) (cleanup : M unit) :
  emits Q body → emits Q cleanup → emits Q (try_finally body cleanup).
Proof.
  intros Hb Hc st r st'. unfold try_finally.
  destruct (body st) as [[a|e|c] st1] eqn:E;
    destruct (Hb _ _ _ E) as (evs1 & Ht1 & HQ1).
  - destruct (cleanup st1) as [[[]|e|c] st2] eqn:E2;
      destruct (Hc _ _ _ E2) as (evs2 & Ht2 & HQ2);
      intros [= <- <-]; exists (evs1 ++ evs2);
      (split; [by rewrite Ht2, Ht1, app_assoc | by apply Forall_app]).
  - destruct (cleanup st1) as [[[]|e'|c] st2] eqn:E2;
      destruct (Hc _ _ _ E2) as (evs2 & Ht2 & HQ2);
      intros [= <- <-]; exists (evs1 ++ evs2);
      (split; [by rewrite Ht2, Ht1, app_assoc | by apply Forall_app]).
  - intros [= <- <-]. eauto.
Qed.

Lemma emits_mkdirSync (Q : Event → Prop) p :
  Q (EvMkdir p) → emits Q (mkdirSync P p).
Proof.
  intros HQ. apply (emits_one Q _ (EvMkdir p) HQ). intros st.
  unfold mkdirSync. destruct (os_refuses P _ _); [done|].
  by destruct (Fs.mkdir_p _ _).
Qed.

Lemma emits_writeFileSync (Q : Event → Prop) p content :
  Q (EvWriteFile p content) → emits Q (writeFileSync P p content).
Proof.
  intros HQ. apply (emits_one Q _ (EvWriteFile p content) HQ). intros st.
  unfold writeFileSync. destruct (os_refuses P _ _); [done|].
  by destruct (Fs.write_file _ _ _).
Qed.

Lemma emits_rmSync (Q : Event → Prop) p : Q (EvRm p) → emits Q (rmSync P p).
Proof.
  intros HQ. apply (emits_one Q _ (EvRm p) HQ). intros st.
  unfold rmSync. by destruct (os_refuses P _ _).
Qed.

Lemma emits_process_chdir (Q : Event → Prop) p :
  Q (EvChdir p) → emits Q (process_chdir p).
Proof.
  intros HQ. apply (emits_one Q _ (EvChdir p) HQ). intros st.
  unfold process_chdir. by destruct (Fs.is_dir _ _).
Qed.

Lemma emits_console_error (Q : Event → Prop) msg detail :
  Q (EvConsoleError msg detail) → emits Q (console_error msg detail).
Proof. intros HQ. by apply (emits_one Q _ (EvConsoleError msg detail) HQ). Qed.

Lemma emits_execSync_inherit (Q : Event → Prop) cmd :
  (∀ c dir, Q (EvExec c dir)) → emits Q (execSync_inherit P cmd).
Proof.
  intros HQ st r st'. unfold execSync_inherit. destruct cmd as [c|].
  - destruct (execSync P c _ _ _) as [[] t']; intros [= <- <-];
      exists [EvExec c (cwd st)]; (split; [done|by constructor]).
  - intros [= <- <-]. exists []. split; [by rewrite app_nil_r|done].
Qed.

Lemma emits_call_detectPackageManager (Q : Event → Prop) projectPath :
  (∀ dir seen r, Q (EvResolve dir seen r)) →
  emits Q (call_detectPackageManager P projectPath).
Proof.
  intros HQ st r st' [= <- <-]. eexists [_]. split; [done|by constructor].
Qed.

End Behaviour.

(** ** The model at work

    Small runs of the path functions, the codec and the generator. *)

Example resolve_relative :
  Path.resolve ["home"; "dev"] "apps/../demo/./" = ["home"; "dev"; "demo"].
Proof. reflexivity. Qed.

Example resolve_absolute :
  Path.resolve ["home"; "dev"] "/srv/demo" = ["srv"; "demo"].
Proof. reflexivity. Qed.

Example resolve_empty : Path.resolve ["home"; "dev"] "" = ["home"; "dev"].
Proof. reflexivity. Qed.

Example split_pin : Js.split "@"%char "pnpm@latest" = ["pnpm"; "latest"].
Proof. reflexivity. Qed.

Example split_scoped : hd "" (Js.split "@"%char "@scope/tool@1") = "".
Proof. reflexivity. Qed.

Example inherited_lookup :
  PACKAGE_MANAGERS_at "toString" = Some (Inherited "toString") ∧
  PACKAGE_MANAGERS_at "yarn" = Some (Known yarn) ∧
  PACKAGE_MANAGERS_at "deno" = None.
Proof. repeat split. Qed.

Example codec_manifest_round_trip :
  Forall
    (λ v, Json.parse (Json.stringify v 2) = Some v)
    [packageJson_of "demo" true (Known npm);
     packageJson_of "back\slash" false (Known bun);
     Scenario.inherited_manifest;
     JArr [JNum 42; JNum (-7); JBool true; JNull; JObj []; JArr []]].
Proof. repeat constructor. Qed.

Example codec_rejects_garbage :
  Json.parse "{ not json" = None ∧ Json.parse "" = None.
Proof. repeat split. Qed.

(** A disk that refuses every file write: the first template file fails,
    the directory is removed again and the process exits with status 1. *)
Example creation_on_read_only_disk :
  let run :=
    createProject (Scenario.read_only ["npm"]) Scenario.templates "demo"
      Scenario.ts_options (Scenario.start Scenario.home []) in
  run.1 = Exit 1 ∧
  fs run.2 = Scenario.home ∧
  last (trace run.2) = Some (EvRm ["home"; "dev"; "demo"]).
Proof. repeat split. Qed.

(** A nested name: [mkdirSync] creates the parent [apps] on the way; after
    the failed install the project directory [apps/demo] is removed, the
    parent stays. *)
Example nested_name_after_failure :
  let run :=
    createProject (Scenario.platform ["npm"] Scenario.install_fails)
      Scenario.templates "apps/demo" Scenario.ts_options
      (Scenario.start Scenario.home []) in
  run.1 = Exit 1 ∧
  Fs.exists_at (fs run.2) ["home"; "dev"; "apps"; "demo"] = false ∧
  Fs.is_dir (fs run.2) ["home"; "dev"; "apps"] = true.
Proof. repeat split. Qed.

(** * The claims *)

(** ** Rejecting a name that is taken *)

Section Rejection.

Context (P : Platform) (T : Templates).

Lemma createProject_when_present projectName options st :
  Fs.exists_at (fs st) (Path.resolve (cwd st) projectName) = true →
  createProject P T projectName options st
  = (Exit 1,
     log (EvConsoleError
            ("❌ Directory " +:+ projectName +:+ " already exists!") None) st).
Proof.
  intros H. unfold createProject, mbind, M_bind, process_cwd, existsSync.
  by rewrite H.
Qed.

(** C2. When the resolved project path is an existing directory,
    [createProject] reports that the directory already exists and exits
    with status 1; the file system and the working directory are as they
    were, and the only event of the run is the error message: no
    directory, file or manifest is created, nothing is removed. *)
Theorem createProject_existing_directory projectName options st entries :
  Fs.stat (fs st) (Path.resolve (cwd st) projectName) = Some (Dir entries) →
  ∃ st',
    createProject P T projectName options st = (Exit 1, st') ∧
    fs st' = fs st ∧ cwd st' = cwd st ∧
    trace st' = trace st ++
      [EvConsoleError
         ("❌ Directory " +:+ projectName +:+ " already exists!") None].
Proof.
  intros H. eexists. split.
  - apply createProject_when_present. unfold Fs.exists_at. by rewrite H.
  - done.
Qed.

(** C9. The check is [fs.existsSync]: whatever kind of entry sits at the
    resolved project path, a regular file as well as a directory,
    [createProject] exits with status 1 after the already-exists message
    and writes nothing. *)
Theorem createProject_existing_entry projectName options st :
  Fs.exists_at (fs st) (Path.resolve (cwd st) projectName) = true →
  ∃ st',
    createProject P T projectName options st = (Exit 1, st') ∧
    fs st' = fs st ∧ cwd st' = cwd st ∧
    trace st' = trace st ++
      [EvConsoleError
         ("❌ Directory " +:+ projectName +:+ " already exists!") None].
Proof.
  intros H. eexists. split; [by apply createProject_when_present|done].
Qed.

End Rejection.

Lemma createProject_existing_directory_witness :
  let st := Scenario.start (Scenario.home_with (Dir [])) [] in
  Fs.stat (fs st) (Path.resolve (cwd st) "demo") = Some (Dir []) ∧
  ∃ st',
    createProject (Scenario.platform ["npm"] Scenario.install_ok)
      Scenario.templates "demo" Scenario.ts_options st = (Exit 1, st') ∧
    fs st' = fs st ∧ cwd st' = cwd st ∧
    trace st' = trace st ++
      [EvConsoleError ("❌ Directory " +:+ "demo" +:+ " already exists!") None].
Proof.
  split; [reflexivity|].
  apply (createProject_existing_directory _ _ "demo" _ _ []). reflexivity.
Defined.

Lemma createProject_existing_entry_witness :
  let st := Scenario.start (Scenario.home_with (File "notes")) [] in
  Fs.exists_at (fs st) (Path.resolve (cwd st) "demo") = true ∧
  Fs.is_file (fs st) (Path.resolve (cwd st) "demo") = true ∧
  ∃ st',
    createProject (Scenario.platform ["npm"] Scenario.install_ok)
      Scenario.templates "demo" Scenario.ts_options st = (Exit 1, st') ∧
    fs st' = fs st ∧ cwd st' = cwd st ∧
    trace st' = trace st ++
      [EvConsoleError ("❌ Directory " +:+ "demo" +:+ " already exists!") None].
Proof.
  split; [reflexivity|]. split; [reflexivity|].
  apply (createProject_existing_entry _ _ "demo"). reflexivity.
Defined.

(** ** The manifest for bun and for JavaScript *)

(** C6. In TypeScript mode with a resolved manager named [bun], the
    manifest's [devDependencies] are those of [generateDevDependencies],
    which has no [ts-node-dev] entry, and its [scripts] are those of
    [generateScripts], whose [dev] is bun's own watch command. *)
Theorem bun_typescript_manifest projectName options packageManager :
  Js.truthy_bool (javascript options) = false →
  ref_name packageManager = Some "bun" →
  let manifest :=
    packageJson_of projectName (negb (Js.truthy_bool (javascript options)))
      packageManager in
  json_field manifest "devDependencies"
    = Some (generateDevDependencies packageManager true) ∧
  json_field (generateDevDependencies packageManager true) "ts-node-dev"
    = None ∧
  json_field manifest "scripts" = Some (generateScripts packageManager true) ∧
  json_field (generateScripts packageManager true) "dev"
    = Some (JStr "bun run --watch src/index.ts").
Proof.
  intros -> Hname.
  unfold packageJson_of, generateDevDependencies, generateScripts.
  rewrite Hname. simpl. done.
Qed.

Lemma bun_typescript_manifest_witness :
  let manifest := packageJson_of "demo" true (Known bun) in
  Js.truthy_bool (javascript Scenario.ts_options) = false ∧
  ref_name (Known bun) = Some "bun" ∧
  json_field manifest "devDependencies"
    = Some (generateDevDependencies (Known bun) true) ∧
  json_field (generateDevDependencies (Known bun) true) "ts-node-dev" = None ∧
  json_field manifest "scripts" = Some (generateScripts (Known bun) true) ∧
  json_field (generateScripts (Known bun) true) "dev"
    = Some (JStr "bun run --watch src/index.ts").
Proof.
  split; [reflexivity|]. split; [reflexivity|].
  apply (bun_typescript_manifest "demo" Scenario.ts_options (Known bun));
    reflexivity.
Defined.

Lemma differs_by_last (p1 p2 s : path) (y : string) :
  s ≠ [] → List.last s "" ≠ y → p1 ++ s ≠ p2 ++ [y].
Proof.
  intros Hne Hlast E.
  rewrite (app_removelast_last "" Hne), app_assoc in E.
  by apply app_inj_tail in E as [_ ?].
Qed.

Ltac solve_not_tsconfig :=
  intros; unfold not_tsconfig; intros ?;
  first [ discriminate
        | intros [= E _]; revert E; apply differs_by_last; discriminate ].

Section JavaScript.

Context (P : Platform) (T : Templates).

(** No call of the generator in JavaScript mode writes a [tsconfig.json],
    in whatever directory. *)
Lemma emits_createProject_javascript target projectName options :
  Js.truthy_bool (javascript options) = true →
  emits (not_tsconfig target) (createProject P T projectName options).
Proof.
  intros Hjs. unfold createProject.
  apply emits_bind; [by apply emits_quiet|intros currentDir].
  apply emits_bind; [by apply emits_quiet|intros found].
  apply emits_bind; [|intros _].
  { destruct found; [|by apply emits_quiet].
    apply emits_bind; [|intros _; by apply emits_quiet].
    apply emits_console_error. solve_not_tsconfig. }
  apply emits_bind; [apply emits_mkdirSync; solve_not_tsconfig|intros _].
  set (p := Path.resolve currentDir projectName).
  apply emits_try_catch.
  - unfold createProject_steps, createProjectStructure, copyTemplateFiles,
      createPackageJson, installDependencies.
    rewrite Hjs. simpl for_each. norm_paths.
    repeat first
      [ apply emits_bind; [|intros ?]
      | apply emits_mkdirSync; solve_not_tsconfig
      | apply emits_writeFileSync; solve_not_tsconfig
      | apply emits_call_detectPackageManager; solve_not_tsconfig
      | apply emits_process_chdir; solve_not_tsconfig
      | apply emits_execSync_inherit; solve_not_tsconfig
      | apply emits_try_finally
      | by apply emits_quiet ].
  - intros e. unfold createProject_cleanup.
    apply emits_bind; [apply emits_console_error; solve_not_tsconfig|intros _].
    apply emits_bind; [by apply emits_quiet|intros still].
    apply emits_bind; [|intros _; by apply emits_quiet].
    destruct still; [apply emits_rmSync; solve_not_tsconfig|by apply emits_quiet].
Qed.

(** C7. In JavaScript mode the manifest's [devDependencies] is the empty
    object whatever manager is resolved, the template files do not
    include [tsconfig.json], and no run of [createProject], failed or
    not, writes a [tsconfig.json] into the project directory. *)
Theorem javascript_mode_needs_no_typescript projectName options st :
  Js.truthy_bool (javascript options) = true →
  let isTS := negb (Js.truthy_bool (javascript options)) in
  (∀ packageManager,
     json_field (packageJson_of projectName isTS packageManager)
       "devDependencies" = Some (JObj [])) ∧
  (∀ template,
     Assoc.get (getTemplateFiles T template "js") "tsconfig.json" = None) ∧
  ∀ r st',
    createProject P T projectName options st = (r, st') →
    ∃ evs,
      trace st' = trace st ++ evs ∧
      ∀ content,
        ¬ In (EvWriteFile
                (Path.join (Path.resolve (cwd st) projectName) "tsconfig.json")
                content) evs.
Proof.
  intros Hjs isTS. subst isTS. rewrite Hjs. repeat split.
  intros r st' Hrun.
  destruct (emits_createProject_javascript
              (Path.resolve (cwd st) projectName) _ _ Hjs _ _ _ Hrun)
    as (evs & Htrace & Hevs).
  exists evs. split; [done|]. intros content Hin. norm_paths_in Hin.
  apply list_elem_of_In in Hin. rewrite Forall_forall in Hevs.
  by apply (Hevs _ Hin content).
Qed.

End JavaScript.

Lemma javascript_mode_needs_no_typescript_witness :
  let P := Scenario.platform ["npm"; "bun"] Scenario.install_ok in
  let st := Scenario.start Scenario.home [] in
  Js.truthy_bool (javascript Scenario.js_options) = true ∧
  (∀ packageManager,
     json_field (packageJson_of "demo" false packageManager)
       "devDependencies" = Some (JObj [])) ∧
  (∀ template,
     Assoc.get (getTemplateFiles Scenario.templates template "js")
       "tsconfig.json" = None) ∧
  ∀ r st',
    createProject P Scenario.templates "demo" Scenario.js_options st
    = (r, st') →
    ∃ evs,
      trace st' = trace st ++ evs ∧
      ∀ content,
        ¬ In (EvWriteFile ["home"; "dev"; "demo"; "tsconfig.json"] content) evs.
Proof.
  split; [reflexivity|].
  apply (javascript_mode_needs_no_typescript
           (Scenario.platform ["npm"; "bun"] Scenario.install_ok)
           Scenario.templates "demo" Scenario.js_options
           (Scenario.start Scenario.home [])).
  reflexivity.
Defined.

(** ** The working directory around the install *)

(** C8. When the project path is a directory, and the directory the
    process started in is still one once the install command has run,
    [installDependencies] changes into the project path, runs the install
    command there, and changes back: whether the command succeeds (normal
    return) or fails (its exception is passed on), the working directory
    and the environment afterwards are those before the call, and the
    trace holds exactly the three calls in that order. *)
Theorem installDependencies_restores_cwd (P : Platform) pm projectPath st :
  Fs.is_dir (fs st) projectPath = true →
  Fs.is_dir (execSync P (installCommand pm) projectPath (env st) (fs st)).2
    (cwd st) = true →
  let '(ok, t') := execSync P (installCommand pm) projectPath (env st) (fs st) in
  installDependencies P (Known pm) projectPath st
  = (if ok then Normal tt else Throw (ChildProcessError (installCommand pm)),
     {| fs := t'; cwd := cwd st; env := env st;
        trace := trace st ++ [EvChdir projectPath;
                              EvExec (installCommand pm) projectPath;
                              EvChdir (cwd st)] |}).
Proof.
  intros Hdir Hback.
  unfold installDependencies, mbind, M_bind, process_cwd, process_chdir,
    try_finally, execSync_inherit.
  simpl. rewrite Hdir. simpl.
  destruct (execSync P (installCommand pm) projectPath (env st) (fs st))
    as [ok t'].
  simpl in Hback.
  destruct ok; simpl; rewrite Hback; unfold set_cwd, set_fs, log; simpl;
    by rewrite <- !app_assoc.
Qed.

Lemma installDependencies_restores_cwd_witness :
  let P := Scenario.platform ["npm"] Scenario.install_fails in
  let st := Scenario.start (Scenario.home_with (Dir [])) [] in
  let p := ["home"; "dev"; "demo"] in
  Fs.is_dir (fs st) p = true ∧
  Fs.is_dir (execSync P (installCommand npm) p (env st) (fs st)).2 (cwd st)
    = true ∧
  ∃ t',
    installDependencies P (Known npm) p st
    = (Throw (ChildProcessError "npm install"),
       {| fs := t'; cwd := ["home"; "dev"]; env := env st;
          trace := [EvChdir p; EvExec "npm install" p;
                    EvChdir ["home"; "dev"]] |}).
Proof.
  split; [reflexivity|]. split; [reflexivity|]. eexists.
  exact (installDependencies_restores_cwd
           (Scenario.platform ["npm"] Scenario.install_fails) npm
           ["home"; "dev"; "demo"]
           (Scenario.start (Scenario.home_with (Dir [])) [])
           eq_refl eq_refl).
Defined.

(** ** The resolver *)

(** C3. A directory whose only content is a manifest with
    [packageManager: constructor@1.0.0]: [PACKAGE_MANAGERS[pmName]] finds
    the [constructor] every object inherits, the truthiness test passes,
    and [detectPackageManager] returns that function, which is none of the
    four descriptors and has no [installCommand]. *)
Theorem detectPackageManager_returns_inherited_member :
  let P := Scenario.platform ["npm"] Scenario.install_ok in
  let r :=
    detectPackageManager P Scenario.inherited_project [] ∅ (Some ["app"]) in
  r = Inherited "constructor" ∧
  (∀ pm, r ≠ Known pm) ∧
  ref_name r = Some "Object" ∧
  ref_installCommand r = None.
Proof. vm_compute. repeat split. discriminate. Qed.

Section Resolver.

Context (P : Platform).

(** X1. A directory without lock file, config file and manifest, an
    environment without user agent and no manager that answers
    [--version]: the resolver returns npm. *)
Theorem detectPackageManager_default t dir currentDir e :
  lock_file_probe t dir = None →
  config_file_probe t dir = None →
  Fs.exists_at t (Path.join dir "package.json") = false →
  e !! "npm_config_user_agent" = None →
  (∀ cmd, version_probe P cmd = false) →
  detectPackageManager P t currentDir e (Some dir) = Known npm.
Proof.
  intros Hlock Hconfig Hmanifest Hagent Hnone.
  unfold detectPackageManager, manifest_field_probe,
    resolve_without_directory, user_agent_probe, availability_probe,
    availableManagers.
  simpl default. rewrite Hlock, Hconfig, Hmanifest, Hagent. simpl.
  by rewrite !Hnone.
Qed.

(** X2. Without lock file, config file and manifest signal, a user agent
    that contains [pnpm] decides for pnpm, whatever managers are
    installed. *)
Theorem user_agent_hint_decides t dir currentDir e userAgent :
  lock_file_probe t dir = None →
  config_file_probe t dir = None →
  manifest_field_probe P t dir = None →
  e !! "npm_config_user_agent" = Some userAgent →
  Js.includes "pnpm" userAgent = true →
  detectPackageManager P t currentDir e (Some dir) = Known pnpm.
Proof.
  intros Hlock Hconfig Hmanifest Hagent Hpnpm.
  unfold detectPackageManager, resolve_without_directory, user_agent_probe.
  simpl default. rewrite Hlock, Hconfig, Hmanifest, Hagent. simpl.
  rewrite Hpnpm.
  destruct userAgent; [discriminate Hpnpm|done].
Qed.

(** C4, amended. [detectPackageManager] is the cascade of the signals in
    the order lock file, config file, manifest field, environment hint,
    availability, with npm as the fallback. Probe 1 itself returns the
    first manager, in the order npm, pnpm, yarn, bun of
    [PACKAGE_MANAGERS], whose lock file is in the directory: when the lock
    file of [pm] is there and the lock file of no manager listed before
    [pm] is, [detectPackageManager] returns [pm], whatever config files
    (that of another manager included), manifest, user agent and
    installed managers there are. *)
Theorem first_lock_file_wins t currentDir e dir :
  detectPackageManager P t currentDir e (Some dir)
    = resolve_by_precedence P t dir e ∧
  ∀ pm,
    In pm (map snd PACKAGE_MANAGERS) →
    has_lock_file t dir pm = true →
    forallb (λ earlier, negb (has_lock_file t dir earlier))
      (managers_before pm) = true →
    detectPackageManager P t currentDir e (Some dir) = Known pm.
Proof.
  split.
  - unfold detectPackageManager, resolve_by_precedence,
      resolve_without_directory.
    simpl default.
    destruct (lock_file_probe t dir); [done|].
    destruct (config_file_probe t dir); [done|].
    destruct (manifest_field_probe P t dir); [done|].
    destruct (user_agent_probe e); [done|].
    by destruct (availability_probe P).
  - intros pm Hpm Hlock Hbefore. unfold detectPackageManager, lock_file_probe.
    simpl default. unfold has_lock_file in *. simpl in Hpm.
    destruct Hpm as [<-|[<-|[<-|[<-|[]]]]]; simpl in *;
      repeat match goal with
        | H : context [Fs.exists_at t ?q] |- _ =>
            destruct (Fs.exists_at t q); simpl in *; try discriminate
        end; done.
Qed.

(** C10. For a manager [pm] of [PACKAGE_MANAGERS] other than npm, the
    manifest built for [pm] carries the pin [<name>@latest]; and in a
    directory that holds nothing but that manifest, as long as the file
    can be read and its text parses back to the manifest, the
    manifest-field probe, and with it [detectPackageManager], returns [pm]
    again. *)
Theorem packageManager_pin_round_trips projectName isTS pm t dir currentDir e :
  let manifest := packageJson_of projectName isTS (Known pm) in
  let text := JSON_stringify P manifest 2 in
  In pm (map snd PACKAGE_MANAGERS) →
  name pm ≠ "npm" →
  Fs.stat t dir = Some (Dir [("package.json", File text)]) →
  os_refuses P (CallReadFile (Path.join dir "package.json")) t = false →
  JSON_parse P text = Some manifest →
  json_field manifest "packageManager" = Some (JStr (name pm +:+ "@latest")) ∧
  manifest_field_probe P t dir = Some (Known pm) ∧
  detectPackageManager P t currentDir e (Some dir) = Known pm.
Proof.
  intros manifest text Hpm Hname Hstat Hread Hparse.
  assert (In pm [pnpm; yarn; bun; npm]) as Hpm' by (simpl in *; tauto).
  assert (String.eqb (name pm) "npm" = false) as Hneq
    by by apply String.eqb_neq.
  assert (manifest_field_probe P t dir = Some (Known pm)) as Hprobe.
  { unfold manifest_field_probe. norm_paths_in Hread. norm_paths.
    rewrite (exists_at_focus _ _ _ _ Hstat), (read_file_focus _ _ _ _ Hstat).
    simpl. rewrite Hread, Hparse. unfold manifest.
    by rewrite packageManager_field_of_manifest, Hneq. }
  repeat split; [|done|].
  - subst manifest. clear -Hpm Hname.
    simpl in Hpm. destruct Hpm as [<-|[<-|[<-|[<-|[]]]]]; by destruct isTS.
  - unfold detectPackageManager. simpl default.
    rewrite (lock_file_probe_focus _ _ _ Hstat),
      (config_file_probe_focus _ _ _ Hstat), Hprobe.
    done.
Qed.

End Resolver.

Lemma detectPackageManager_default_witness :
  detectPackageManager (Scenario.platform [] Scenario.install_ok)
    Scenario.home [] ∅ (Some ["home"; "dev"]) = Known npm.
Proof.
  apply (detectPackageManager_default
           (Scenario.platform [] Scenario.install_ok)
           Scenario.home ["home"; "dev"] [] ∅); by intros.
Defined.

Lemma user_agent_hint_decides_witness :
  detectPackageManager (Scenario.platform ["npm"; "yarn"] Scenario.install_ok)
    Scenario.home []
    (list_to_map
       [("npm_config_user_agent", "pnpm/8.15.4 npm/? node/v20.11.0 linux x64")])
    (Some ["home"; "dev"]) = Known pnpm.
Proof.
  apply (user_agent_hint_decides
           (Scenario.platform ["npm"; "yarn"] Scenario.install_ok)
           Scenario.home ["home"; "dev"] [] _
           "pnpm/8.15.4 npm/? node/v20.11.0 linux x64"); reflexivity.
Defined.

Lemma first_lock_file_wins_witness :
  let t := Scenario.yarn_lock_pnpm_config in
  In yarn (map snd PACKAGE_MANAGERS) ∧
  has_lock_file t ["app"] yarn = true ∧
  has_config_file t ["app"] pnpm = true ∧
  forallb (λ earlier, negb (has_lock_file t ["app"] earlier))
    (managers_before yarn) = true ∧
  detectPackageManager (Scenario.platform ["npm"] Scenario.install_ok)
    t [] ∅ (Some ["app"]) = Known yarn.
Proof.
  split; [simpl; tauto|]. repeat (split; [reflexivity|]).
  apply (first_lock_file_wins
           (Scenario.platform ["npm"] Scenario.install_ok)
           Scenario.yarn_lock_pnpm_config [] ∅ ["app"]);
    [simpl; tauto|reflexivity|reflexivity].
Defined.

(** C4 as it is stated fails: with the lock files of npm and yarn and the
    config file of pnpm in one directory, the resolver returns npm, not
    yarn. *)
Lemma lock_file_of_later_manager_loses :
  In yarn (map snd PACKAGE_MANAGERS) ∧
  In pnpm (map snd PACKAGE_MANAGERS) ∧
  yarn ≠ pnpm ∧
  has_lock_file Scenario.two_lock_files ["app"] yarn = true ∧
  has_config_file Scenario.two_lock_files ["app"] pnpm = true ∧
  detectPackageManager (Scenario.platform [] Scenario.install_ok)
    Scenario.two_lock_files [] ∅ (Some ["app"]) = Known npm ∧
  detectPackageManager (Scenario.platform [] Scenario.install_ok)
    Scenario.two_lock_files [] ∅ (Some ["app"]) ≠ Known yarn.
Proof.
  split; [simpl; tauto|]. split; [simpl; tauto|]. split; [discriminate|].
  split; [reflexivity|]. split; [reflexivity|]. split; [reflexivity|].
  vm_compute. discriminate.
Qed.

Lemma packageManager_pin_round_trips_witness :
  let P := Scenario.platform ["npm"; "pnpm"] Scenario.install_ok in
  let manifest := packageJson_of "demo" true (Known pnpm) in
  let text := JSON_stringify P manifest 2 in
  let t := Dir [("demo", Dir [("package.json", File text)])] in
  In pnpm (map snd PACKAGE_MANAGERS) ∧
  name pnpm ≠ "npm" ∧
  JSON_parse P text = Some manifest ∧
  json_field manifest "packageManager" = Some (JStr "pnpm@latest") ∧
  manifest_field_probe P t ["demo"] = Some (Known pnpm) ∧
  detectPackageManager P t [] ∅ (Some ["demo"]) = Known pnpm.
Proof.
  intros P manifest text t.
  split; [simpl; tauto|]. split; [discriminate|].
  split; [vm_compute; reflexivity|].
  apply (packageManager_pin_round_trips P "demo" true pnpm t ["demo"] [] ∅).
  - simpl. tauto.
  - discriminate.
  - reflexivity.
  - reflexivity.
  - vm_compute. reflexivity.
Defined.

(** ** A whole creation *)

Section Creation.

Context (P : Platform) (T : Templates).

Lemma mkdirSync_Normal p st st' :
  mkdirSync P p st = (Normal tt, st') →
  Fs.mkdir_p (fs st) p = Some (fs st') ∧ advances [EvMkdir p] st st'.
Proof.
  unfold mkdirSync. destruct (os_refuses P _ _); [done|].
  destruct (Fs.mkdir_p _ _); [|done]. by intros [= <-].
Qed.

(** The project directory after the first [mkdirSync] of [createProject]:
    it was missing, so it is there and empty. *)
Lemma project_directory_fresh p st st' :
  Fs.exists_at (fs st) p = false →
  mkdirSync P p st = (Normal tt, st') →
  Fs.stat (fs st') p = Some Fs.empty_dir.
Proof.
  intros Hmissing Hmkdir. apply mkdirSync_Normal in Hmkdir as [Hmkdir _].
  apply (FsFacts.mkdir_p_fresh (fs st)); [|done].
  unfold Fs.exists_at in Hmissing. by destruct (Fs.stat (fs st) p).
Qed.

(** [createProject] when the target is missing: what follows the check. *)
Lemma createProject_when_missing projectName options st :
  let p := Path.resolve (cwd st) projectName in
  Fs.exists_at (fs st) p = false →
  createProject P T projectName options st
  = (mkdirSync P p;;
     try_catch (createProject_steps P T p projectName options)
       (createProject_cleanup P p)) st.
Proof.
  intros p Hmissing.
  unfold createProject, mbind, M_bind, process_cwd, existsSync.
  fold p. by rewrite Hmissing.
Qed.

Lemma createProject_after_mkdir projectName options st st1 :
  let p := Path.resolve (cwd st) projectName in
  Fs.exists_at (fs st) p = false →
  mkdirSync P p st = (Normal tt, st1) →
  createProject P T projectName options st
  = try_catch (createProject_steps P T p projectName options)
      (createProject_cleanup P p) st1.
Proof.
  intros p Hmissing Hmkdir.
  rewrite (createProject_when_missing _ _ _ Hmissing). fold p.
  unfold mbind, M_bind. by rewrite Hmkdir.
Qed.

Lemma createProject_cleanup_run p e st :
  os_refuses P (CallRm p) (fs st) = false →
  p ≠ [] →
  ∃ st',
    createProject_cleanup P p e st = (Exit 1, st') ∧
    (∀ s, Fs.stat (fs st') (p ++ s) = None) ∧
    In (EvConsoleError "❌ Error creating project:" (Some e)) (trace st').
Proof.
  intros Hrm Hp.
  unfold createProject_cleanup, mbind, M_bind, console_error, existsSync,
    rmSync, process_exit.
  simpl. destruct (Fs.exists_at (fs st) p) eqn:Hthere; simpl.
  - rewrite Hrm. eexists. split; [done|]. simpl. split.
    + intros s. by apply FsFacts.remove_gone.
    + rewrite !in_app_iff. simpl. tauto.
  - eexists. split; [done|]. simpl. split.
    + intros s. apply FsFacts.stat_below_missing.
      unfold Fs.exists_at in Hthere. by destruct (Fs.stat (fs st) p).
    + rewrite in_app_iff. simpl. tauto.
Qed.

Lemma createProject_cleanup_not_Normal p e st st' :
  createProject_cleanup P p e st ≠ (Normal tt, st').
Proof.
  unfold createProject_cleanup, mbind, M_bind, console_error, existsSync,
    rmSync, process_exit.
  simpl. destruct (Fs.exists_at (fs st) p); simpl; [|done].
  by destruct (os_refuses P _ _).
Qed.

(** C1. The target is missing, its directory is created, and the
    operating system does not refuse the removal. Then, by the outcome of
    the steps inside the [try]: if they complete, [createProject] returns
    normally, and the install command exited with status zero in a file
    system whose project directory held the complete structure (skeleton,
    template files, manifest); if any of them raises an error [e], be it
    from the skeleton, a template file, the manifest or the install,
    [createProject] reports [e], exits with status 1, and nothing is left
    at or below the project path. No step calls [process.exit] itself. *)
Theorem createProject_all_or_nothing projectName options st st1 :
  let p := Path.resolve (cwd st) projectName in
  let isTS := negb (Js.truthy_bool (javascript options)) in
  let manifest :=
    JSON_stringify P
      (packageJson_of projectName isTS
         (Known (resolve_without_directory P (env st)))) 2 in
  Fs.exists_at (fs st) p = false →
  mkdirSync P p st = (Normal tt, st1) →
  (∀ t, os_refuses P (CallRm p) t = false) →
  match createProject_steps P T p projectName options st1 with
  | (Normal _, st2) =>
      createProject P T projectName options st = (Normal tt, st2) ∧
      ∃ t cmd,
        Fs.stat t p = Some (complete T isTS manifest) ∧
        execSync P cmd p (env st) t = (true, fs st2)
  | (Throw e, st2) =>
      ∃ st',
        createProject P T projectName options st = (Exit 1, st') ∧
        (∀ s, Fs.stat (fs st') (p ++ s) = None) ∧
        In (EvConsoleError "❌ Error creating project:" (Some e)) (trace st')
  | (Exit _, _) => False
  end.
Proof.
  intros p isTS manifest Hmissing Hmkdir Hrm.
  rewrite (createProject_after_mkdir _ _ _ _ Hmissing Hmkdir). fold p.
  pose proof (project_directory_fresh _ _ _ Hmissing Hmkdir) as Hfresh.
  apply mkdirSync_Normal in Hmkdir as [_ (_ & Henv & _)].
  unfold try_catch.
  destruct (createProject_steps P T p projectName options st1)
    as [[[]|e|code] st2] eqn:Hsteps.
  - split; [done|].
    destruct (createProject_steps_ok _ _ _ _ _ _ _ Hfresh Hsteps)
      as (_ & t & cmd & _ & Hstat & _ & Hexec & _).
    exists t, cmd. rewrite Henv in Hstat, Hexec. by split.
  - apply createProject_cleanup_run; [apply Hrm|].
    intros Hp. rewrite Hp in Hmissing. discriminate Hmissing.
  - by apply never_exits_createProject_steps in Hsteps.
Qed.

(** C5, amended. A creation that completes resolves the package manager
    twice, both times on the project directory. The first resolution, in
    [createPackageJson], sees the directory with the skeleton and the
    template files only: no probe of lock file, config file or manifest
    hits, so its result [first] is that of the probes that do not look at
    the directory; [first] shapes the scripts, the dev dependencies and
    the pin of the manifest that is written next. The second resolution,
    in [createProject], sees the directory with the manifest in it;
    provided the manifest text parses back, it returns [first] again, and
    its install command is the one that is run. *)
Theorem createProject_resolves_twice projectName options st st' :
  let p := Path.resolve (cwd st) projectName in
  let isTS := negb (Js.truthy_bool (javascript options)) in
  let first := Known (resolve_without_directory P (env st)) in
  let manifest := JSON_stringify P (packageJson_of projectName isTS first) 2 in
  JSON_parse P manifest = Some (packageJson_of projectName isTS first) →
  createProject P T projectName options st = (Normal tt, st') →
  ∃ t1 t2 cmd,
    let events :=
      EvMkdir p ::
      creation_events T p isTS t1 first manifest t2 first cmd (cwd st) in
    trace st' = trace st ++ events ∧
    List.filter is_resolve events
      = [EvResolve p t1 first; EvResolve p t2 first] ∧
    Fs.stat t1 p = Some (templated T isTS) ∧
    lock_file_probe t1 p = None ∧
    config_file_probe t1 p = None ∧
    manifest_field_probe P t1 p = None ∧
    Fs.stat t2 p = Some (complete T isTS manifest) ∧
    ref_installCommand first = Some cmd.
Proof.
  intros p isTS first manifest Hparse Hrun.
  destruct (Fs.exists_at (fs st) p) eqn:Hmissing.
  { by rewrite createProject_when_present in Hrun. }
  rewrite (createProject_when_missing _ _ _ Hmissing) in Hrun. fold p in Hrun.
  apply bind_Normal in Hrun as ([] & st1 & Hmkdir & Hrun).
  pose proof (project_directory_fresh _ _ _ Hmissing Hmkdir) as Hfresh.
  apply mkdirSync_Normal in Hmkdir as [_ (Hcwd & Henv & Htrace)].
  unfold try_catch in Hrun.
  destruct (createProject_steps P T p projectName options st1)
    as [[[]|e|code] st2] eqn:Hsteps.
  - injection Hrun as ->.
    destruct (createProject_steps_ok _ _ _ _ _ _ _ Hfresh Hsteps)
      as (t1 & t2 & cmd & Hstat1 & Hstat2 & Hcmd & _ & (_ & _ & Hevents)).
    rewrite Henv, Hcwd in *.
    fold isTS first manifest in Hstat1, Hstat2, Hcmd, Hevents.
    rewrite (detect_complete P T _ _ _ _ _ _ Hstat2 Hparse) in Hcmd, Hevents.
    exists t1, t2, cmd. cbv zeta. repeat split; try done.
    + rewrite Hevents, Htrace. by rewrite <- app_assoc.
    + unfold creation_events, template_events. by destruct isTS.
    + rewrite (lock_file_probe_focus _ _ _ Hstat1). by destruct isTS.
    + rewrite (config_file_probe_focus _ _ _ Hstat1). by destruct isTS.
    + unfold manifest_field_probe. norm_paths.
      rewrite (exists_at_focus _ _ _ _ Hstat1). by destruct isTS.
  - by apply createProject_cleanup_not_Normal in Hrun.
  - done.
Qed.

End Creation.

Lemma createProject_all_or_nothing_witness :
  let P := Scenario.platform ["npm"] Scenario.install_fails in
  let st := Scenario.start Scenario.home [] in
  let p := ["home"; "dev"; "demo"] in
  Fs.exists_at (fs st) p = false ∧
  (mkdirSync P p st).1 = Normal tt ∧
  ∃ st',
    createProject P Scenario.templates "demo" Scenario.ts_options st
    = (Exit 1, st') ∧
    (∀ s, Fs.stat (fs st') (p ++ s) = None) ∧
    In (EvConsoleError "❌ Error creating project:"
          (Some (ChildProcessError "npm install"))) (trace st').
Proof.
  split; [reflexivity|]. split; [reflexivity|].
  exact (createProject_all_or_nothing
           (Scenario.platform ["npm"] Scenario.install_fails)
           Scenario.templates "demo" Scenario.ts_options
           (Scenario.start Scenario.home [])
           (mkdirSync (Scenario.platform ["npm"] Scenario.install_fails)
              ["home"; "dev"; "demo"] (Scenario.start Scenario.home [])).2
           eq_refl eq_refl (λ _, eq_refl)).
Defined.

Lemma createProject_resolves_twice_witness :
  let P := Scenario.platform ["npm"; "pnpm"] Scenario.install_ok in
  let st := Scenario.start Scenario.home [] in
  let p := ["home"; "dev"; "demo"] in
  let first := Known pnpm in
  let manifest := Json.stringify (packageJson_of "demo" true first) 2 in
  let run := createProject P Scenario.templates "demo" Scenario.ts_options st in
  Json.parse manifest = Some (packageJson_of "demo" true first) ∧
  run = (Normal tt, run.2) ∧
  ∃ t1 t2,
    trace run.2 =
      EvMkdir p ::
      creation_events Scenario.templates p true t1 first manifest t2 first
        "pnpm install" ["home"; "dev"] ∧
    Fs.stat t1 p = Some (templated Scenario.templates true) ∧
    Fs.stat t2 p = Some (complete Scenario.templates true manifest).
Proof.
  intros P st p first manifest run.
  assert (Json.parse manifest = Some (packageJson_of "demo" true first))
    as Hparse by (vm_compute; reflexivity).
  assert (run = (Normal tt, run.2)) as Hrun by (vm_compute; reflexivity).
  split; [exact Hparse|]. split; [exact Hrun|].
  destruct (createProject_resolves_twice P Scenario.templates "demo"
              Scenario.ts_options st run.2 Hparse Hrun)
    as (t1 & t2 & cmd & Htrace & _ & Hstat1 & _ & _ & _ & Hstat2 & Hcmd).
  injection Hcmd as <-. exists t1, t2.
  split; [exact Htrace|]. split; [exact Hstat1|exact Hstat2].
Defined.

(** C5 as it is stated fails: in the creation of [demo] with npm alone
    installed the resolver is called twice, and the second call sees the
    manifest that was written after the first. *)
Lemma resolver_is_called_twice :
  let P := Scenario.platform ["npm"] Scenario.install_ok in
  let p := ["home"; "dev"; "demo"] in
  let manifest := Json.stringify (packageJson_of "demo" true (Known npm)) 2 in
  let t1 := Scenario.home_with (templated Scenario.templates true) in
  let t2 := Scenario.home_with (complete Scenario.templates true manifest) in
  let run :=
    createProject P Scenario.templates "demo" Scenario.ts_options
      (Scenario.start Scenario.home []) in
  run.1 = Normal tt ∧
  List.filter is_resolve (trace run.2)
    = [EvResolve p t1 (Known npm); EvResolve p t2 (Known npm)] ∧
  length (List.filter is_resolve (trace run.2)) ≠ 1 ∧
  Fs.exists_at t1 (p ++ ["package.json"]) = false ∧
  Fs.exists_at t2 (p ++ ["package.json"]) = true.
Proof. vm_compute. repeat split. discriminate. Qed.

(** X3. The creation of [demo] in TypeScript mode with npm alone
    installed: the run completes; the project directory holds the
    skeleton, [src/index.ts], [README.md], [.gitignore], [tsconfig.json],
    [package.json] and what the install added; the manifest's [build]
    script is the type checker and it has no [packageManager] pin. *)
Theorem demo_scenario :
  let P := Scenario.platform ["npm"] Scenario.install_ok in
  let p := ["home"; "dev"; "demo"] in
  let packageJson := packageJson_of "demo" true (Known npm) in
  let run :=
    createProject P Scenario.templates "demo" Scenario.ts_options
      (Scenario.start Scenario.home []) in
  run.1 = Normal tt ∧
  Fs.stat (fs run.2) p
    = Some (Dir (templated_entries Scenario.templates true
                 ++ [("package.json", File (Json.stringify packageJson 2));
                     ("node_modules", Fs.empty_dir)])) ∧
  Fs.is_dir (fs run.2) (p ++ ["src"; "routes"]) = true ∧
  Fs.is_dir (fs run.2) (p ++ ["src"; "middleware"]) = true ∧
  Fs.is_dir (fs run.2) (p ++ ["src"; "utils"]) = true ∧
  Fs.is_dir (fs run.2) (p ++ ["public"]) = true ∧
  Fs.is_file (fs run.2) (p ++ ["src"; "index.ts"]) = true ∧
  Fs.is_file (fs run.2) (p ++ ["tsconfig.json"]) = true ∧
  (json_field packageJson "scripts" ≫= λ scripts, json_field scripts "build")
    = Some (JStr "tsc") ∧
  json_field packageJson "packageManager" = None ∧
  cwd run.2 = ["home"; "dev"].
Proof. vm_compute. repeat split. Qed.
